(** * Schema dump script: a shallow embedding of [scripts/dump_schema_docker.py]

    The script reads a [.env] file, takes [DATABASE_URL] from it, splits the
    URL into connection parameters, runs [pg_dump] in a container and writes
    the captured output to [docs/prism.sql].

    Conventions of the embedding.
    - A Python [str] is a Rocq [string]: a sequence of characters with code
      points 0..255.  The character classes below ([isspace], [lower], ...)
      are those of Python on that range.
    - A Python [dict] with string keys is a [gmap string _].
    - [urlparse] is Python's [urllib.parse.urlparse]; it is transcribed from
      CPython 3.11 ([Lib/urllib/parse.py]).  Two checks of it need tables
      that are not text processing (IP address syntax, Unicode NFKC); they
      are parameters of the development.
    - Side effects (file system, console, child process, [sys.exit],
      exceptions) are threaded through a state-and-exception monad [M].
    - Text, not bytes: the content of a file and the output of the child
      are the characters that the locale's codec decodes their bytes to,
      line ends as they are in the bytes.  Reading in text mode turns CR LF
      and CR into LF; writing in text mode leaves LF as it is (the line
      separator of a POSIX host).  The script reads and writes with one
      codec, so equal texts are equal bytes wherever that codec encodes
      what it decoded.
    - The console accepts every message the script prints; its encoding
      has the two marks (U+2713, U+2717) of the result lines, as UTF-8
      has. *)

From Stdlib Require Import ZArith NArith Ascii String List Lia Bool.
From Stdlib Require Import DecimalString.
From stdpp Require Import base gmap strings list fin_maps.

(** ** Python string primitives *)

Module Py.

Definition code (c : ascii) : N := N_of_ascii c.

Definition in_range (lo hi : N) (c : ascii) : bool :=
  ((lo <=? code c) && (code c <=? hi))%N.

(** [str.isspace] on one character. *)
Definition isspace (c : ascii) : bool :=
  in_range 9 13 c || in_range 28 32 c
  || (code c =? 133)%N || (code c =? 160)%N.

(** Membership in [_WHATWG_C0_CONTROL_OR_SPACE]. *)
Definition is_c0_or_space (c : ascii) : bool := (code c <=? 32)%N.

(** [c.isascii() and c.isalpha()]. *)
Definition is_ascii_alpha (c : ascii) : bool :=
  in_range 65 90 c || in_range 97 122 c.

(** [c.isdigit() and c.isascii()]. *)
Definition is_ascii_digit (c : ascii) : bool := in_range 48 57 c.

(** [c in scheme_chars]. *)
Definition is_scheme_char (c : ascii) : bool :=
  is_ascii_alpha c || is_ascii_digit c
  || Ascii.eqb c "+" || Ascii.eqb c "-" || Ascii.eqb c ".".

(** [str.lower] on one character. *)
Definition lower_char (c : ascii) : ascii :=
  if in_range 65 90 c
     || (in_range 192 222 c && negb (code c =? 215)%N)
  then ascii_of_N (code c + 32) else c.

Fixpoint lower (s : string) : string :=
  match s with
  | EmptyString => EmptyString
  | String c s' => String (lower_char c) (lower s')
  end.

Fixpoint forallb (p : ascii -> bool) (s : string) : bool :=
  match s with
  | EmptyString => true
  | String c s' => p c && forallb p s'
  end.

(** [c in s]. *)
Fixpoint contains (c : ascii) (s : string) : bool :=
  match s with
  | EmptyString => false
  | String a s' => Ascii.eqb a c || contains c s'
  end.

(** [s.lstrip(chars)], the set [chars] given as a predicate. *)
Fixpoint lstrip_by (p : ascii -> bool) (s : string) : string :=
  match s with
  | EmptyString => EmptyString
  | String c s' => if p c then lstrip_by p s' else s
  end.

(** [s.rstrip(chars)]. *)
Fixpoint rstrip_by (p : ascii -> bool) (s : string) : string :=
  match s with
  | EmptyString => EmptyString
  | String c s' =>
      match rstrip_by p s' with
      | EmptyString => if p c then EmptyString else String c EmptyString
      | r => String c r
      end
  end.

(** [s.strip()]. *)
Definition strip (s : string) : string :=
  rstrip_by isspace (lstrip_by isspace s).

(** [s.replace(c, empty)]: every [c] removed. *)
Fixpoint remove_char (c : ascii) (s : string) : string :=
  match s with
  | EmptyString => EmptyString
  | String a s' =>
      if Ascii.eqb a c then remove_char c s' else String a (remove_char c s')
  end.

(** [s.startswith(c)] and [s.endswith(c)] for a one-character [c]. *)
Definition startswith (c : ascii) (s : string) : bool :=
  match s with
  | String a _ => Ascii.eqb a c
  | EmptyString => false
  end.

Fixpoint endswith (c : ascii) (s : string) : bool :=
  match s with
  | EmptyString => false
  | String a EmptyString => Ascii.eqb a c
  | String _ s' => endswith c s'
  end.

(** [s[:-1]]. *)
Fixpoint drop_last (s : string) : string :=
  match s with
  | EmptyString => EmptyString
  | String _ EmptyString => EmptyString
  | String a s' => String a (drop_last s')
  end.

(** [s[1:-1]]. *)
Definition slice_1_m1 (s : string) : string :=
  match s with
  | EmptyString => EmptyString
  | String _ s' => drop_last s'
  end.

(** The split behind [s.partition(c)]: [Some (before, after)] at the first
    occurrence of [c], [None] when [c] does not occur. *)
Fixpoint cut (c : ascii) (s : string) : option (string * string) :=
  match s with
  | EmptyString => None
  | String a s' =>
      if Ascii.eqb a c then Some (EmptyString, s')
      else match cut c s' with
           | Some (l, r) => Some (String a l, r)
           | None => None
           end
  end.

(** The split behind [s.rpartition(c)]: at the last occurrence of [c]. *)
Fixpoint rcut (c : ascii) (s : string) : option (string * string) :=
  match s with
  | EmptyString => None
  | String a s' =>
      match rcut c s' with
      | Some (l, r) => Some (String a l, r)
      | None => if Ascii.eqb a c then Some (EmptyString, s') else None
      end
  end.

(** [s.partition(c)] as Python returns it: [(before, sep, after)], where
    [sep] is kept as the flag "the separator was found". *)
Definition partition (c : ascii) (s : string) : string * bool * string :=
  match cut c s with
  | Some (l, r) => (l, true, r)
  | None => (s, false, EmptyString)
  end.

(** [s.rpartition(c)]: [(before, sep, after)]. *)
Definition rpartition (c : ascii) (s : string) : string * bool * string :=
  match rcut c s with
  | Some (l, r) => (l, true, r)
  | None => (EmptyString, false, s)
  end.

(** [s.split(c)[0]]. *)
Definition split_head (c : ascii) (s : string) : string :=
  match cut c s with
  | Some (l, _) => l
  | None => s
  end.

(** The longest prefix without a character of [p], and the rest. *)
Fixpoint break (p : ascii -> bool) (s : string) : string * string :=
  match s with
  | EmptyString => (EmptyString, EmptyString)
  | String a s' =>
      if p a then (EmptyString, s)
      else let '(l, r) := break p s' in (String a l, r)
  end.

Definition digit_val (c : ascii) : Z := Z.of_N (code c) - 48.

(** [int(s)] for a string of ASCII digits. *)
Definition int_of_digits (s : string) : Z :=
  (fix go (acc : Z) (s : string) : Z :=
     match s with
     | EmptyString => acc
     | String c s' => go (10 * acc + digit_val c)%Z s'
     end) 0%Z s.

(** [str(n)] for an integer. *)
Definition str_of_int (n : Z) : string :=
  NilZero.string_of_int (Z.to_int n).

(** [Some rest] when [s[:2] == '//'], with [rest = s[2:]]. *)
Definition after_slashes (s : string) : option string :=
  match s with
  | String c1 (String c2 rest) =>
      if Ascii.eqb c1 "/" && Ascii.eqb c2 "/" then Some rest else None
  | _ => None
  end.

(** [not s]. *)
Definition is_empty (s : string) : bool :=
  match s with
  | EmptyString => true
  | _ => false
  end.

End Py.

(** ** Exceptions and results *)

(** The exceptions the script can meet.  [SystemExit] is not one of them: it
    is the [Exit] outcome of the monad below. *)
Inductive exn : Type :=
| ValueError
| TypeError
| FileNotFoundError
| FileExistsError
| IsADirectoryError
| NotADirectoryError
| CalledProcessError (returncode : Z) (stderr : string)
| OtherError (name : string).

(** Result of a computation without side effects: a value or a raised
    exception. *)
Inductive pyres (A : Type) : Type :=
| Val (a : A)
| Exc (e : exn).
Arguments Val {A} a.
Arguments Exc {A} e.

Definition pyres_bind {A B} (r : pyres A) (k : A -> pyres B) : pyres B :=
  match r with
  | Val a => k a
  | Exc e => Exc e
  end.

Notation "x <-? r ; k" := (pyres_bind r (fun x => k))
  (at level 100, r at next level, right associativity).

(** ** [urllib.parse.urlparse] *)

Record ParseResult : Type := mkParseResult {
  scheme : string;
  netloc : string;
  path : string;
  params : string;
  query : string;
  fragment : string
}.

Definition uses_params : list string :=
  [EmptyString; "ftp"; "hdl"; "prospero"; "http"; "imap";
   "https"; "shttp"; "rtsp"; "rtspu"; "sip"; "sips";
   "mms"; "sftp"; "tel"].

Definition is_netloc_delim (c : ascii) : bool :=
  Ascii.eqb c "/" || Ascii.eqb c "?" || Ascii.eqb c "#".

(** [_splitnetloc(url, 2)] applied to ["//" + rest]: the netloc runs up to
    the earliest of ['/'], ['?'], ['#'], or to the end. *)
Definition splitnetloc (rest : string) : string * string :=
  Py.break is_netloc_delim rest.

(** [_splitparams]. *)
Definition splitparams (url : string) : string * string :=
  if Py.contains "/" url then
    match Py.rcut "/" url with
    | Some (dir, last) =>
        match Py.cut ";" last with
        | Some (l, r) => (dir +:+ String "/" l, r)
        | None => (url, EmptyString)
        end
    | None => (url, EmptyString)
    end
  else
    match Py.cut ";" url with
    | Some (l, r) => (l, r)
    | None => (Py.drop_last url, url)
    end.

Section UrlParse.

(** [_check_bracketed_host] accepts a host: it is an IPv6 or IPvFuture
    literal.  Deciding that is the work of [ipaddress] and [re]. *)
Variable bracketed_host_ok : string -> bool.

(** [_checknetloc] accepts a netloc that has a non-ASCII character: its
    NFKC normal form has none of [/?#@:].  Deciding that is the work of
    [unicodedata]. *)
Variable nfkc_ok : string -> bool.

(** [_check_bracketed_host]. *)
Definition check_bracketed_host (hostname : string) : pyres unit :=
  if bracketed_host_ok hostname then Val tt else Exc ValueError.

(** [_check_bracketed_netloc], called for a netloc with both brackets. *)
Definition check_bracketed_netloc (netloc : string) : pyres unit :=
  let '(_, _, hostname_and_port) := Py.rpartition "@" netloc in
  let '(before_bracket, have_open_br, bracketed) :=
    Py.partition "[" hostname_and_port in
  if have_open_br then
    if negb (Py.is_empty before_bracket) then Exc ValueError
    else
      let '(hostname, _, port) := Py.partition "]" bracketed in
      if negb (Py.is_empty port) && negb (Py.startswith ":" port)
      then Exc ValueError
      else check_bracketed_host hostname
  else
    let '(hostname, _, _) := Py.partition ":" hostname_and_port in
    check_bracketed_host hostname.

(** [_checknetloc]. *)
Definition checknetloc (netloc : string) : pyres unit :=
  if Py.is_empty netloc || Py.forallb (fun c => (Py.code c <? 128)%N) netloc
  then Val tt
  else if nfkc_ok netloc then Val tt else Exc ValueError.

(** [urlsplit(url)]: scheme, netloc, path, query, fragment. *)
Definition urlsplit (url : string)
  : pyres (string * string * string * string * string) :=
  let url := Py.lstrip_by Py.is_c0_or_space url in
  let url :=
    Py.remove_char "010" (Py.remove_char "013" (Py.remove_char "009" url)) in
  let '(scheme, url) :=
    match Py.cut ":" url with
    | Some (String c0 _ as pre, post) =>
        if Py.is_ascii_alpha c0 && Py.forallb Py.is_scheme_char pre
        then (Py.lower pre, post)
        else (EmptyString, url)
    | _ => (EmptyString, url)
    end in
  nu <-? match Py.after_slashes url with
         | Some rest =>
             let '(netloc, url') := splitnetloc rest in
             let ob := Py.contains "[" netloc in
             let cb := Py.contains "]" netloc in
             if (ob && negb cb) || (cb && negb ob) then Exc ValueError
             else
               _ <-? (if ob && cb then check_bracketed_netloc netloc
                      else Val tt);
               Val (netloc, url')
         | None => Val (EmptyString, url)
         end;
  let '(netloc, url) := nu in
  let '(url, fragment) :=
    match Py.cut "#" url with
    | Some (l, r) => (l, r)
    | None => (url, EmptyString)
    end in
  let '(url, query) :=
    match Py.cut "?" url with
    | Some (l, r) => (l, r)
    | None => (url, EmptyString)
    end in
  _ <-? checknetloc netloc;
  Val (scheme, netloc, url, query, fragment).

Definition urlparse (url : string) : pyres ParseResult :=
  splitresult <-? urlsplit url;
  let '(scheme, netloc, url, query, fragment) := splitresult in
  let '(url, params) :=
    if existsb (String.eqb scheme) uses_params && Py.contains ";" url
    then splitparams url
    else (url, EmptyString) in
  Val (mkParseResult scheme netloc url params query fragment).

End UrlParse.

(** [_userinfo]: username and password, each [None] when absent. *)
Definition userinfo (p : ParseResult) : option string * option string :=
  let '(userinfo, have_info, _) := Py.rpartition "@" (netloc p) in
  if have_info then
    let '(username, have_password, password) := Py.partition ":" userinfo in
    (Some username, if have_password then Some password else None)
  else (None, None).

(** [_hostinfo]: the host name and the port text ([None] when empty). *)
Definition hostinfo (p : ParseResult) : string * option string :=
  let '(_, _, hostinfo) := Py.rpartition "@" (netloc p) in
  let '(_, have_open_br, bracketed) := Py.partition "[" hostinfo in
  let '(hostname, port) :=
    if have_open_br then
      let '(hostname, _, port) := Py.partition "]" bracketed in
      let '(_, _, port) := Py.partition ":" port in
      (hostname, port)
    else
      let '(hostname, _, port) := Py.partition ":" hostinfo in
      (hostname, port) in
  (hostname, if Py.is_empty port then None else Some port).

Definition username (p : ParseResult) : option string := fst (userinfo p).
Definition password (p : ParseResult) : option string := snd (userinfo p).

Definition hostname (p : ParseResult) : option string :=
  let hostname := fst (hostinfo p) in
  if Py.is_empty hostname then None
  else
    let '(hostname, percent, zone) := Py.partition "%" hostname in
    Some (Py.lower hostname +:+ (if percent then "%" else EmptyString) +:+ zone).

(** [sys.int_info.default_max_str_digits]: [int] refuses a text of more
    digits, leading zeros counted. *)
Definition int_max_str_digits : Z := 4300.

Definition port (p : ParseResult) : pyres (option Z) :=
  match snd (hostinfo p) with
  | None => Val None
  | Some port =>
      if Py.forallb Py.is_ascii_digit port then
        if (int_max_str_digits <? Z.of_nat (String.length port))%Z
        then Exc ValueError
        else
          let n := Py.int_of_digits port in
          if ((0 <=? n) && (n <=? 65535))%Z then Val (Some n)
          else Exc ValueError
      else Exc ValueError
  end.

(** ** [parse_database_url] *)

(** The dictionary the function returns has five fixed keys; it is a
    record here.  [user] and [password] can be [None]. *)
Record db_config : Type := mkConfig {
  cfg_host : string;
  cfg_port : Z;
  cfg_database : string;
  cfg_user : option string;
  cfg_password : option string
}.

(** [x or d] for an optional string: [None] and the empty string are
    falsy. *)
Definition or_str (x : option string) (d : string) : string :=
  match x with
  | Some s => if Py.is_empty s then d else s
  | None => d
  end.

(** [x or d] for an optional integer: [None] and [0] are falsy. *)
Definition or_int (x : option Z) (d : Z) : Z :=
  match x with
  | Some n => if (n =? 0)%Z then d else n
  | None => d
  end.

Section ParseDatabaseUrl.

Variable bracketed_host_ok : string -> bool.
Variable nfkc_ok : string -> bool.

Definition parse_database_url (database_url : string) : pyres db_config :=
  parsed <-? urlparse bracketed_host_ok nfkc_ok database_url;
  let host := or_str (hostname parsed) "localhost" in
  p <-? port parsed;
  let port := or_int p 5432 in
  let database :=
    Py.split_head "?" (Py.lstrip_by (Ascii.eqb "/") (path parsed)) in
  Val (mkConfig host port database (username parsed) (password parsed)).

End ParseDatabaseUrl.

(** ** The world the script runs in *)

(** A file-system entry: a regular file with its text (its bytes as the
    locale's codec decodes them, line ends as on disk), or a directory.
    Paths are compared as strings; links and permissions are not modelled. *)
Inductive node : Type :=
| File (content : string)
| Dir.

(** What [os.path.getsize] gives: the number of bytes that a text takes
    on disk, which depends on the codec and the line ends of the platform
    and is kept as the text it is the size of; or the size of a directory
    entry. *)
Inductive disk_size : Type :=
| BytesOf (content : string)
| DirEntrySize.

(** One constructor per [print] call of the script, with the values its
    f-string interpolates. *)
Inductive message : Type :=
| MEnvNotFound (env_path : string)
| MLoadingEnv (env_file : string)
| MNoDatabaseUrl
| MDumping (database : string)
| MHost (host : string) (port : Z)
| MOutputFile (output_file : string)
| MUsingDocker
| MSuccess (output_file : string)
| MFileSize (file_size : disk_size)
| MDumpError
| MDumpErrorText (stderr : string)
| MDockerNotFound
| MDockerHint
| MDockerMac
| MDockerWindows
| MDockerLinux.

(** What a run does to the outside, in order. *)
Inductive event : Type :=
| EPrint (m : message)
| EMkdir (path : string)
| ESpawn (argv : list string)
| EWrite (path : string) (content : string).

(** The files, and what the run has done so far. *)
Record world : Type := mkWorld {
  fs : gmap string node;
  trace : list event
}.

(** How a computation ends: with a value, with [sys.exit(status)], or with
    an exception on its way up. *)
Inductive outcome (A : Type) : Type :=
| Ret (a : A)
| Exit (status : Z)
| Raise (e : exn).
Arguments Ret {A} a.
Arguments Exit {A} status.
Arguments Raise {A} e.

Definition M (A : Type) : Type := world -> outcome A * world.

Definition ret {A} (a : A) : M A := fun w => (Ret a, w).

Definition bind {A B} (m : M A) (k : A -> M B) : M B :=
  fun w =>
    match m w with
    | (Ret a, w') => k a w'
    | (Exit c, w') => (Exit c, w')
    | (Raise e, w') => (Raise e, w')
    end.

Notation "x <- m ;; k" := (bind m (fun x => k))
  (at level 100, m at next level, right associativity).
Notation "m ;;; k" := (bind m (fun _ => k))
  (at level 100, right associativity).

Definition sys_exit {A} (status : Z) : M A := fun w => (Exit status, w).
Definition raise {A} (e : exn) : M A := fun w => (Raise e, w).

Definition lift {A} (r : pyres A) : M A :=
  match r with
  | Val a => ret a
  | Exc e => raise e
  end.

Definition emit (e : event) : M unit :=
  fun w => (Ret tt, mkWorld (fs w) (trace w ++ [e])).

(** [print]: the console is taken to accept every message.  (A console
    whose encoding lacks a character of a message makes [print] raise
    [UnicodeEncodeError]; such a console is not modelled.) *)
Definition print (m : message) : M unit := emit (EPrint m).

(** [try: body except ...: handler]: [handler e] is [None] when no
    [except] clause matches [e].  [sys.exit] passes through. *)
Definition try_except {A} (body : M A) (handler : exn -> option (M A)) : M A :=
  fun w =>
    match body w with
    | (Raise e, w') =>
        match handler e with
        | Some h => h w'
        | None => (Raise e, w')
        end
    | r => r
    end.

(** *** File system *)

Definition os_path_exists (p : string) : M bool :=
  fun w => (Ret (bool_decide (is_Some (fs w !! p))), w).

(** The directories above a path, outermost first: for [/p/docs/prism.sql]
    they are [/p] and [/p/docs].  Paths are as [pathlib] gives them, without
    empty components; the root and the working directory are not listed. *)
Fixpoint ancestors_from (prefix p : string) : list string :=
  match p with
  | EmptyString => []
  | String c p' =>
      if Ascii.eqb c "/" then
        (if Py.is_empty prefix then [] else [prefix])
        ++ ancestors_from (prefix +:+ String c EmptyString) p'
      else ancestors_from (prefix +:+ String c EmptyString) p'
  end.

Definition ancestors (p : string) : list string :=
  ancestors_from EmptyString p.

(** Walking down [dirs]: the first of them that is missing gives
    [FileNotFoundError], the first that is a regular file
    [NotADirectoryError]. *)
Fixpoint first_error (files : gmap string node) (dirs : list string)
  : option exn :=
  match dirs with
  | [] => None
  | d :: dirs' =>
      match files !! d with
      | Some Dir => first_error files dirs'
      | Some (File _) => Some NotADirectoryError
      | None => Some FileNotFoundError
      end
  end.

(** Can the directory that holds [p] be reached?  The error of the path
    lookup when it cannot. *)
Definition parent_error (files : gmap string node) (p : string) : option exn :=
  first_error files (ancestors p).

(** [open(p, 'r')] read to the end. *)
Definition read_text (p : string) : M string :=
  fun w =>
    match fs w !! p with
    | Some (File content) => (Ret content, w)
    | Some Dir => (Raise IsADirectoryError, w)
    | None => (Raise FileNotFoundError, w)
    end.

(** [with open(p, 'w') as f: f.write(content)]: [open] fails when the
    path is a directory or cannot be reached; otherwise the file holds
    [content], a line feed written as it is.  A write that fails half way
    (a full disk) is not modelled. *)
Definition write_text (p content : string) : M unit :=
  fun w =>
    match fs w !! p with
    | Some Dir => (Raise IsADirectoryError, w)
    | _ =>
        match parent_error (fs w) p with
        | Some e => (Raise e, w)
        | None =>
            (Ret tt,
             mkWorld (<[p := File content]> (fs w))
                     (trace w ++ [EWrite p content]))
        end
    end.

(** [Path(p).mkdir(exist_ok=True)]. *)
Definition mkdir_exist_ok (p : string) : M unit :=
  fun w =>
    match fs w !! p with
    | Some Dir => (Ret tt, w)
    | Some (File _) => (Raise FileExistsError, w)
    | None =>
        match parent_error (fs w) p with
        | Some e => (Raise e, w)
        | None =>
            (Ret tt, mkWorld (<[p := Dir]> (fs w)) (trace w ++ [EMkdir p]))
        end
    end.

(** [os.path.getsize(p)]. *)
Definition getsize (p : string) : M disk_size :=
  fun w =>
    match fs w !! p with
    | Some (File content) => (Ret (BytesOf content), w)
    | Some Dir => (Ret DirEntrySize, w)
    | None => (Raise FileNotFoundError, w)
    end.

(** [Path / name], for a path without a trailing separator. *)
Definition path_join (dir name : string) : string :=
  dir +:+ String "/" name.

(** *** Text files read line by line *)

(** Universal newlines: ["\r\n"] and ["\r"] are read as ["\n"]. *)
Fixpoint universal_newlines (s : string) : string :=
  match s with
  | EmptyString => EmptyString
  | String c s' =>
      if Ascii.eqb c "013" then
        match s' with
        | String c' s'' =>
            if Ascii.eqb c' "010" then String "010" (universal_newlines s'')
            else String "010" (universal_newlines s')
        | EmptyString => String "010" EmptyString
        end
      else String c (universal_newlines s')
  end.

(** The lines of a text, each with its ["\n"] (the last one may lack it). *)
Fixpoint split_lines (s : string) : list string :=
  match s with
  | EmptyString => []
  | String c s' =>
      if Ascii.eqb c "010" then String "010" EmptyString :: split_lines s'
      else
        match split_lines s' with
        | [] => [String c EmptyString]
        | l :: ls => String c l :: ls
        end
  end.

(** [for line in f] over a file opened in text mode. *)
Definition text_lines (content : string) : list string :=
  split_lines (universal_newlines content).

(** ** [load_env_file] *)

Definition dquote : ascii := "034".
Definition squote : ascii := "039".

(** Lines 30-39: the trimmed key and value of a line, [None] for a line the
    loop skips. *)
Definition split_line (line : string) : option (string * string) :=
  let line := Py.strip line in
  if Py.is_empty line || Py.startswith "#" line then None
  else if Py.contains "=" line then
    let '(key, _, value) := Py.partition "=" line in
    Some (Py.strip key, Py.strip value)
  else None.

(** Lines 42-45: remove quotes if present. *)
Definition unquote (value : string) : string :=
  if Py.startswith dquote value && Py.endswith dquote value
  then Py.slice_1_m1 value
  else if Py.startswith squote value && Py.endswith squote value
  then Py.slice_1_m1 value
  else value.

(** The entry a line adds to [env_vars], if any. *)
Definition entry_of_line (line : string) : option (string * string) :=
  match split_line line with
  | Some (key, value) => Some (key, unquote value)
  | None => None
  end.

(** One turn of the loop. *)
Definition load_line (env_vars : gmap string string) (line : string)
  : gmap string string :=
  match entry_of_line line with
  | Some (key, value) => <[key := value]> env_vars
  | None => env_vars
  end.

Definition load_env_file (env_path : string) : M (gmap string string) :=
  found <- os_path_exists env_path ;;
  (if negb found
   then (print (MEnvNotFound env_path) ;;; sys_exit 1)
   else ret tt) ;;;
  content <- read_text env_path ;;
  ret (foldl load_line ∅ (text_lines content)).

(** ** [dump_schema_docker] and [main] *)

(** What [subprocess.run] meets: the child ran and exited, with what it
    wrote to its standard output and standard error (the characters the
    locale's codec decodes its bytes to, line ends as the child wrote
    them); or [subprocess.run] raised before it had a result
    ([FileNotFoundError] when there is no [docker] on the path). *)
Inductive proc_result : Type :=
| ProcExited (returncode : Z) (stdout stderr : string)
| ProcNotStarted (e : exn).

(** The value passed with [-e]: the password when there is a non-empty one. *)
Definition pgpassword (password : option string) : string :=
  match password with
  | Some pw => if Py.is_empty pw then "PGPASSWORD=" else "PGPASSWORD=" +:+ pw
  | None => "PGPASSWORD="
  end.

(** The argument list; [--username] is followed by [None] when the URL has
    no user. *)
Definition docker_cmd (db_config : db_config) : list (option string) :=
  [Some "docker"; Some "run"; Some "--rm";
   Some "--network"; Some "host";
   Some "-e"; Some (pgpassword (cfg_password db_config));
   Some "postgres:16";
   Some "pg_dump";
   Some "--host"; Some (cfg_host db_config);
   Some "--port"; Some (Py.str_of_int (cfg_port db_config));
   Some "--username"; cfg_user db_config;
   Some "--dbname"; Some (cfg_database db_config);
   Some "--schema-only";
   Some "--no-owner";
   Some "--no-privileges"].

(** All arguments, when each of them is a string. *)
Fixpoint argv_of (cmd : list (option string)) : option (list string) :=
  match cmd with
  | [] => Some []
  | Some a :: cmd' =>
      match argv_of cmd' with
      | Some l => Some (a :: l)
      | None => None
      end
  | None :: _ => None
  end.

(** The exit status of the process: that of [sys.exit], 1 for an exception
    nobody caught, 0 when the script runs to its end. *)
Definition exit_status {A} (o : outcome A) : Z :=
  match o with
  | Ret _ => 0
  | Exit status => status
  | Raise _ => 1
  end.

Section Script.

Variable bracketed_host_ok : string -> bool.
Variable nfkc_ok : string -> bool.

(** The container engine and the dump tool behind it: what running the
    argument list gives.  The container is started without a volume, so
    the child does not touch the files of the project; it shows only in
    its exit status and in what it prints. *)
Variable run_process : list string -> proc_result.

(** [subprocess.run(cmd, capture_output=True, text=True, check=True)],
    returning [result.stdout].  An argument that is not a string is a
    [TypeError] before any child is started.  In text mode the captured
    output and error text have every CR LF and every CR replaced by LF. *)
Definition subprocess_run (cmd : list (option string)) : M string :=
  match argv_of cmd with
  | None => raise TypeError
  | Some argv =>
      emit (ESpawn argv) ;;;
      match run_process argv with
      | ProcNotStarted e => raise e
      | ProcExited returncode stdout stderr =>
          if (returncode =? 0)%Z then ret (universal_newlines stdout)
          else raise (CalledProcessError returncode
                        (universal_newlines stderr))
      end
  end.

(** The [except] clauses of [dump_schema_docker]: [None] for an exception
    that neither of them catches. *)
Definition dump_except (e : exn) : option (M bool) :=
  match e with
  | CalledProcessError _ stderr =>
      Some (print MDumpError ;;;
            print (MDumpErrorText stderr) ;;;
            ret false)
  | FileNotFoundError =>
      Some (print MDockerNotFound ;;;
            print MDockerHint ;;;
            print MDockerMac ;;;
            print MDockerWindows ;;;
            print MDockerLinux ;;;
            ret false)
  | _ => None
  end.

Definition dump_schema_docker (db_config : db_config) (output_file : string)
  : M bool :=
  let cmd := docker_cmd db_config in
  print (MDumping (cfg_database db_config)) ;;;
  print (MHost (cfg_host db_config) (cfg_port db_config)) ;;;
  print (MOutputFile output_file) ;;;
  print MUsingDocker ;;;
  try_except
    (stdout <- subprocess_run cmd ;;
     write_text output_file stdout ;;;
     print (MSuccess output_file) ;;;
     file_size <- getsize output_file ;;
     print (MFileSize file_size) ;;;
     ret true)
    dump_except.

(** [main], with the project root ([Path(__file__).parent.parent]) as its
    argument. *)
Definition main (project_root : string) : M unit :=
  let env_file := path_join project_root ".env" in
  print (MLoadingEnv env_file) ;;;
  env_vars <- load_env_file env_file ;;
  let database_url := or_str (env_vars !! "DATABASE_URL") EmptyString in
  (if Py.is_empty database_url
   then (print MNoDatabaseUrl ;;; sys_exit 1)
   else ret tt) ;;;
  db_config <- lift (parse_database_url bracketed_host_ok nfkc_ok
                       database_url) ;;
  let docs_dir := path_join project_root "docs" in
  mkdir_exist_ok docs_dir ;;;
  let output_file := path_join docs_dir "prism.sql" in
  success <- dump_schema_docker db_config output_file ;;
  if success then sys_exit 0 else sys_exit 1.

(** The script run from a file system: the exit status of the process (an
    exception that reaches the top ends it with status 1) and the world it
    leaves. *)
Definition run_script (project_root : string) (files : gmap string node)
  : Z * world :=
  let '(o, w) := main project_root (mkWorld files []) in
  (exit_status o, w).

End Script.

(** ** Vocabulary of the statements *)

(** A character of a plain URL: ASCII, and not a square bracket. *)
Definition plain_url_char (c : ascii) : bool :=
  (Py.code c <? 128)%N && negb (Ascii.eqb c "[") && negb (Ascii.eqb c "]").

(** A port text that is a port number: ASCII digits only, no more of them
    than [int] reads, and a value of at most 65535. *)
Definition is_port_number (text : string) : bool :=
  Py.forallb Py.is_ascii_digit text
  && (Z.of_nat (String.length text) <=? int_max_str_digits)%Z
  && (Py.int_of_digits text <=? 65535)%Z.

(** A line feed. *)
Definition nl : string := String "010" EmptyString.

(** No line of [post] assigns [key]. *)
Definition not_reassigned (key : string) (post : list string) : Prop :=
  Forall (fun l => fst <$> entry_of_line l ≠ Some key) post.

(** A line the loop passes over: blank, a comment, or without ['=']. *)
Definition ignorable (line : string) : Prop :=
  Py.forallb Py.isspace line = true
  \/ Py.startswith "#" (Py.lstrip_by Py.isspace line) = true
  \/ Py.contains "=" line = false.

(** A text with Windows line ends: every line feed becomes a carriage
    return and a line feed. *)
Fixpoint to_crlf (s : string) : string :=
  match s with
  | EmptyString => EmptyString
  | String c s' =>
      if Ascii.eqb c "010" then String "013" (String "010" (to_crlf s'))
      else String c (to_crlf s')
  end.

(** The events that start a child, and those that write a file. *)
Definition is_spawn (e : event) : bool :=
  match e with
  | ESpawn _ => true
  | _ => false
  end.

Definition is_write (e : event) : bool :=
  match e with
  | EWrite _ _ => true
  | _ => false
  end.

(** How many events of a trace satisfy [p]. *)
Fixpoint count_events (p : event -> bool) (t : list event) : nat :=
  match t with
  | [] => 0
  | e :: t' => (if p e then 1 else 0) + count_events p t'
  end.


(** The value of [DATABASE_URL] in a loaded file, empty when absent. *)
Definition database_url_of (content : string) : string :=
  or_str (foldl load_line ∅ (text_lines content) !! "DATABASE_URL")
         EmptyString.

(** The output path of the script. *)
Definition output_path (project_root : string) : string :=
  path_join (path_join project_root "docs") "prism.sql".

(** The first line the script prints. *)
Definition greeting (project_root : string) : list event :=
  [EPrint (MLoadingEnv (path_join project_root ".env"))].

(** The four lines printed before the child is started. *)
Definition banner (db_config : db_config) (output_file : string) : list event :=
  [EPrint (MDumping (cfg_database db_config));
   EPrint (MHost (cfg_host db_config) (cfg_port db_config));
   EPrint (MOutputFile output_file);
   EPrint MUsingDocker].

(** What the [except] clauses make of an exception raised in world [w]. *)
Definition handled (e : exn) (w : world) : outcome bool * world :=
  match dump_except e with
  | Some h => h w
  | None => (Raise e, w)
  end.

(** ** Sample data *)

Definition no_host_url : string := "postgres://u@/mydb".

(** [n] times the digit 0, and a URL whose port 5433 is written with 4301
    digits. *)
Fixpoint zeros (n : nat) : string :=
  match n with
  | O => EmptyString
  | S n' => String "0" (zeros n')
  end.

Definition long_port_url : string :=
  "postgres://u:p@h:" +:+ zeros 4297 +:+ "5433/mydb".
Definition no_host_parsed : ParseResult :=
  mkParseResult "postgres" "u@" "/mydb" EmptyString EmptyString EmptyString.
Definition no_host_cfg : db_config :=
  mkConfig "localhost" 5432 "mydb" (Some "u") None.

(** [v] between two quotes [q]. *)
Definition quoted (q : ascii) (v : string) : string :=
  String q (v +:+ String q EmptyString).

(** An environment file for the examples.  Its five lines are a comment,
    [DUP] without quotes, [KEY] with a value in double quotes, [DUP] again
    with a value in single quotes, and [Q] whose value is one double quote
    character. *)
Definition sample_env : string :=
  "# settings" +:+ String "010"
  ("DUP=first" +:+ String "010"
  ("KEY=" +:+ quoted dquote "value with spaces" +:+ String "010"
  ("DUP = " +:+ quoted squote "second" +:+ String "010"
  ("Q=" +:+ String dquote EmptyString)))).

Definition sample_world : world :=
  mkWorld (<["/p/.env" := File sample_env]> (<["/p" := Dir]> ∅)) [].

(** An environment file whose URL has a query, and a key without value. *)
Definition query_env : string :=
  "DATABASE_URL = postgres://h/db?sslmode=require" +:+ nl
  +:+ "EMPTY=" +:+ nl.

Definition query_world : world :=
  mkWorld (<["/p/.env" := File query_env]> (<["/p" := Dir]> ∅)) [].

(** [sample_env] without its comment line, at another path. *)
Definition sample_world2 : world :=
  mkWorld (<["/q/.env" := File
              ("DUP=first" +:+ String "010"
               ("KEY=" +:+ quoted dquote "value with spaces" +:+ String "010"
               ("DUP = " +:+ quoted squote "second" +:+ String "010"
               ("Q=" +:+ String dquote EmptyString))))]>
             (<["/p/.env" := File sample_env]> ∅)) [].

(** A project whose environment file names a database, a container engine
    whose dump fails, and one whose dump works. *)
Definition project_env : string :=
  "DATABASE_URL=postgres://u:p@myhost:5433/mydb" +:+ nl.

Definition project_files : gmap string node :=
  <["/p/.env" := File project_env]> (<["/p" := Dir]> ∅).

Definition project_cfg : db_config :=
  mkConfig "myhost" 5433 "mydb" (Some "u") (Some "p").

Definition project_argv : list string :=
  ["docker"; "run"; "--rm"; "--network"; "host"; "-e"; "PGPASSWORD=p";
   "postgres:16"; "pg_dump"; "--host"; "myhost"; "--port"; "5433";
   "--username"; "u"; "--dbname"; "mydb";
   "--schema-only"; "--no-owner"; "--no-privileges"].

Definition failing_docker (argv : list string) : proc_result :=
  ProcExited 1 EmptyString "pg_dump: error: connection to server failed".

Definition working_docker (argv : list string) : proc_result :=
  ProcExited 0 "CREATE TABLE t ();" EmptyString.

Definition failing_run : Z * world :=
  run_script (fun _ => true) (fun _ => true) failing_docker "/p" project_files.

Definition working_run : Z * world :=
  run_script (fun _ => true) (fun _ => true) working_docker "/p" project_files.

(** The same two assignments with Unix and with Windows line ends. *)
Definition unix_env : string := "A=1" +:+ nl +:+ "B = two" +:+ nl.

Definition line_end_world : world :=
  mkWorld (<["/w/.env" := File (to_crlf unix_env)]>
             (<["/u/.env" := File unix_env]> ∅)) [].

(** A dump of two lines, the first ended by CR LF and the second by LF. *)
Definition crlf_output : string :=
  "CREATE TABLE t ();" +:+ String "013" (String "010" EmptyString)
  +:+ "CREATE TABLE u ();" +:+ String "010" EmptyString.

Definition crlf_docker (argv : list string) : proc_result :=
  ProcExited 0 crlf_output EmptyString.


(** Projects whose URL has a port that is not a number, or no user, and
    one where [docs] is a regular file. *)
Definition bad_port_files : gmap string node :=
  <["/p/.env" := File "DATABASE_URL=postgres://u:p@h:5x/db"]>
    (<["/p" := Dir]> ∅).

Definition no_user_files : gmap string node :=
  <["/p/.env" := File "DATABASE_URL=postgres://myhost/mydb"]>
    (<["/p" := Dir]> ∅).

Definition docs_file_files : gmap string node :=
  <["/p/docs" := File "notes"]> project_files.

(** The project once its docs directory is there. *)
Definition before_dump : world :=
  mkWorld (<["/p/docs" := Dir]> project_files) [].

(** * Properties *)

(** ** Strings *)

Lemma app_String (a : ascii) (s t : string) :
  String a s +:+ t = String a (s +:+ t).
Proof. reflexivity. Qed.

Lemma app_Empty (t : string) : EmptyString +:+ t = t.
Proof. reflexivity. Qed.

Lemma lstrip_by_app_stop p (k : string) (c : ascii) (rest : string) :
  p c = false ->
  Py.lstrip_by p (k +:+ String c rest) = Py.lstrip_by p k +:+ String c rest.
Proof.
  intros Hc. induction k as [|a k IH].
  - rewrite !app_Empty. simpl. now rewrite Hc.
  - rewrite app_String. simpl. destruct (p a); [exact IH | reflexivity].
Qed.

Lemma lstrip_by_idem p (s : string) :
  Py.lstrip_by p (Py.lstrip_by p s) = Py.lstrip_by p s.
Proof.
  induction s as [|a s IH]; [reflexivity|].
  simpl. destruct (p a) eqn:Ha; [exact IH|]. simpl. now rewrite Ha.
Qed.

Lemma rstrip_by_all p (s : string) :
  Py.forallb p s = true -> Py.rstrip_by p s = EmptyString.
Proof.
  induction s as [|a s IH]; [reflexivity|].
  simpl. intros [Ha Hs]%andb_true_iff. now rewrite IH, Ha.
Qed.

Lemma rstrip_by_app_stop p (s : string) (c : ascii) (eol : string) :
  p c = false -> Py.forallb p eol = true ->
  Py.rstrip_by p (s +:+ String c eol) = s +:+ String c EmptyString.
Proof.
  intros Hc Heol. induction s as [|a s IH].
  - rewrite !app_Empty. simpl. now rewrite (rstrip_by_all _ _ Heol), Hc.
  - rewrite !app_String. simpl. rewrite IH.
    destruct s; reflexivity.
Qed.

Lemma contains_app_here (c : ascii) (s rest : string) :
  Py.contains c (s +:+ String c rest) = true.
Proof.
  induction s as [|a s IH].
  - rewrite app_Empty. simpl. now rewrite Ascii.eqb_refl.
  - rewrite app_String. simpl. rewrite IH. apply orb_true_r.
Qed.

Lemma contains_lstrip_by p (c : ascii) (s : string) :
  Py.contains c s = false -> Py.contains c (Py.lstrip_by p s) = false.
Proof.
  induction s as [|a s IH]; [reflexivity|].
  simpl. intros [Ha Hs]%orb_false_iff.
  destruct (p a); [now apply IH|]. simpl. now rewrite Ha, Hs.
Qed.

Lemma cut_app_first (c : ascii) (s rest : string) :
  Py.contains c s = false ->
  Py.cut c (s +:+ String c rest) = Some (s, rest).
Proof.
  induction s as [|a s IH]; intros H.
  - rewrite app_Empty. simpl. now rewrite Ascii.eqb_refl.
  - simpl in H. apply orb_false_iff in H as [Ha Hs].
    rewrite app_String. simpl. now rewrite Ha, (IH Hs).
Qed.

Lemma endswith_app_last (c : ascii) (s : string) :
  Py.endswith c (s +:+ String c EmptyString) = true.
Proof.
  induction s as [|a s IH].
  - rewrite app_Empty. simpl. apply Ascii.eqb_refl.
  - rewrite app_String. simpl.
    destruct (s +:+ String c EmptyString) eqn:E; [|exact IH].
    destruct s; discriminate.
Qed.

Lemma drop_last_app_last (c : ascii) (s : string) :
  Py.drop_last (s +:+ String c EmptyString) = s.
Proof.
  induction s as [|a s IH]; [reflexivity|].
  rewrite app_String. simpl. rewrite IH.
  destruct (s +:+ String c EmptyString) eqn:E; [|reflexivity].
  destruct s; discriminate.
Qed.

Lemma is_empty_app_String (s : string) (c : ascii) (rest : string) :
  Py.is_empty (s +:+ String c rest) = false.
Proof. destruct s; reflexivity. Qed.

Lemma startswith_app (c : ascii) (s : string) (d : ascii) (rest : string) :
  Py.startswith c s = false -> Ascii.eqb d c = false ->
  Py.startswith c (s +:+ String d rest) = false.
Proof. destruct s; simpl; auto. Qed.

Lemma length_app_str (s t : string) :
  String.length (s +:+ t) = String.length s + String.length t.
Proof. induction s as [|a s IH]; simpl; [reflexivity|]. now rewrite <- IH. Qed.

Lemma str_app_assoc (s t u : string) : (s +:+ t) +:+ u = s +:+ (t +:+ u).
Proof.
  induction s as [|a s IH]; [reflexivity|].
  rewrite !app_String. now rewrite IH.
Qed.

Lemma forallb_lstrip_by (P q : ascii -> bool) (s : string) :
  Py.forallb P s = true -> Py.forallb P (Py.lstrip_by q s) = true.
Proof.
  induction s as [|a s IH]; [reflexivity|].
  simpl. intros H. destruct (q a); [|exact H].
  apply andb_true_iff in H as [_ H]. now apply IH.
Qed.

Lemma forallb_remove_char (P : ascii -> bool) (c : ascii) (s : string) :
  Py.forallb P s = true -> Py.forallb P (Py.remove_char c s) = true.
Proof.
  induction s as [|a s IH]; [reflexivity|].
  simpl. intros [Ha Hs]%andb_true_iff.
  destruct (Ascii.eqb a c); simpl; [now apply IH|].
  now rewrite Ha, IH.
Qed.

Lemma forallb_cut (P : ascii -> bool) (c : ascii) (s l r : string) :
  Py.cut c s = Some (l, r) ->
  Py.forallb P s = true ->
  Py.forallb P l = true /\ Py.forallb P r = true.
Proof.
  revert l. induction s as [|a s IH]; intros l; [discriminate|].
  simpl. intros Hcut [Ha Hs]%andb_true_iff.
  destruct (Ascii.eqb a c).
  - injection Hcut as <- <-. auto.
  - destruct (Py.cut c s) as [[l' r']|]; [|discriminate].
    injection Hcut as <- <-. destruct (IH l' eq_refl Hs) as [Hl Hr].
    simpl. now rewrite Ha, Hl.
Qed.

Lemma forallb_break (P q : ascii -> bool) (s : string) :
  Py.forallb P s = true ->
  Py.forallb P (fst (Py.break q s)) = true
  /\ Py.forallb P (snd (Py.break q s)) = true.
Proof.
  induction s as [|a s IH]; [auto|].
  simpl. intros H. destruct (q a); [auto|].
  apply andb_true_iff in H as [Ha Hs]. destruct (IH Hs) as [Hl Hr].
  destruct (Py.break q s) as [l r]. simpl in *. now rewrite Ha, Hl.
Qed.

Lemma forallb_impl (P Q : ascii -> bool) (s : string) :
  (forall c, P c = true -> Q c = true) ->
  Py.forallb P s = true -> Py.forallb Q s = true.
Proof.
  intros HPQ. induction s as [|a s IH]; [reflexivity|].
  simpl. intros [Ha Hs]%andb_true_iff. now rewrite (HPQ _ Ha), IH.
Qed.

Lemma forallb_not_contains (P : ascii -> bool) (x : ascii) (s : string) :
  P x = false -> Py.forallb P s = true -> Py.contains x s = false.
Proof.
  intros Hx. induction s as [|a s IH]; [reflexivity|].
  simpl. intros [Ha Hs]%andb_true_iff. rewrite (IH Hs), orb_false_r.
  destruct (Ascii.eqb a x) eqn:E; [|reflexivity].
  apply Ascii.eqb_eq in E as ->. congruence.
Qed.

(** ** The loop of [load_env_file] *)

Lemma isspace_quote (q : ascii) :
  q = dquote \/ q = squote -> Py.isspace q = false.
Proof. intros [-> | ->]; reflexivity. Qed.

Lemma unquote_wrapped (q : ascii) (v : string) :
  q = dquote \/ q = squote ->
  unquote (String q (v +:+ String q EmptyString)) = v.
Proof.
  intros Hq. unfold unquote.
  assert (Hend : Py.endswith q (String q (v +:+ String q EmptyString)) = true).
  { change (String q (v +:+ String q EmptyString))
      with (String q v +:+ String q EmptyString).
    apply endswith_app_last. }
  assert (Hcut : Py.slice_1_m1 (String q (v +:+ String q EmptyString)) = v).
  { simpl. apply drop_last_app_last. }
  assert (Hstart : Py.startswith q (String q (v +:+ String q EmptyString)) = true).
  { simpl. apply Ascii.eqb_refl. }
  destruct Hq as [-> | ->].
  - now rewrite Hend, Hstart.
  - rewrite Hend, Hstart.
    replace (Py.startswith dquote (String squote (v +:+ String squote EmptyString)))
      with false by reflexivity.
    exact Hcut.
Qed.

Lemma strip_wrapped (q : ascii) (v eol : string) :
  Py.isspace q = false -> Py.forallb Py.isspace eol = true ->
  Py.strip (String q (v +:+ String q eol))
  = String q (v +:+ String q EmptyString).
Proof.
  intros Hq Heol. unfold Py.strip. simpl Py.lstrip_by. rewrite Hq.
  change (String q (v +:+ String q eol)) with (String q v +:+ String q eol).
  now rewrite rstrip_by_app_stop.
Qed.

Lemma split_line_assignment (k value eol : string) (c : ascii) :
  Py.contains "=" k = false ->
  Py.startswith "#" (Py.lstrip_by Py.isspace k) = false ->
  Py.isspace c = false ->
  Py.forallb Py.isspace eol = true ->
  split_line (k +:+ String "=" (value +:+ String c eol))
  = Some (Py.strip k, Py.strip (value +:+ String c EmptyString)).
Proof.
  intros Hk Hhash Hc Heol. unfold split_line.
  assert (Hstrip : Py.strip (k +:+ String "=" (value +:+ String c eol))
          = Py.lstrip_by Py.isspace k
            +:+ String "=" (value +:+ String c EmptyString)).
  { unfold Py.strip. rewrite lstrip_by_app_stop by reflexivity.
    change (String "=" (value +:+ String c eol))
      with (String "=" value +:+ String c eol).
    rewrite <- str_app_assoc.
    rewrite rstrip_by_app_stop by assumption.
    now rewrite str_app_assoc. }
  rewrite Hstrip, is_empty_app_String, contains_app_here.
  rewrite startswith_app by (assumption || reflexivity).
  simpl orb. cbv iota. unfold Py.partition.
  rewrite cut_app_first by now apply contains_lstrip_by.
  unfold Py.strip at 1. now rewrite lstrip_by_idem.
Qed.

(** A line [KEY=qVALUEq], [q] a quote, followed by its line end. *)
Lemma entry_of_quoted_line (k v eol : string) (q : ascii) :
  Py.contains "=" k = false ->
  Py.startswith "#" (Py.lstrip_by Py.isspace k) = false ->
  Py.forallb Py.isspace eol = true ->
  q = dquote \/ q = squote ->
  entry_of_line (k +:+ String "=" (String q (v +:+ String q eol)))
  = Some (Py.strip k, v).
Proof.
  intros Hk Hhash Heol Hq. unfold entry_of_line.
  pose proof (isspace_quote q Hq) as Hsp.
  change (String q (v +:+ String q eol)) with (String q v +:+ String q eol).
  rewrite split_line_assignment by assumption.
  change (String q v +:+ String q EmptyString)
    with (String q (v +:+ String q EmptyString)).
  rewrite (strip_wrapped q v EmptyString Hsp eq_refl).
  now rewrite unquote_wrapped.
Qed.

Lemma foldl_load_line_app (env : gmap string string) (pre post : list string) :
  foldl load_line env (pre ++ post)
  = foldl load_line (foldl load_line env pre) post.
Proof. apply foldl_app. Qed.

(** Lines that do not assign [key] leave its entry alone. *)
Lemma foldl_load_line_frame (key : string) (post : list string) :
  Forall (fun l => fst <$> entry_of_line l ≠ Some key) post ->
  forall env : gmap string string,
    foldl load_line env post !! key = env !! key.
Proof.
  induction 1 as [|l post Hl _ IH]; intros env; [reflexivity|].
  simpl. rewrite IH. unfold load_line.
  destruct (entry_of_line l) as [[k v]|]; [|reflexivity].
  apply lookup_insert_ne. intros ->. now apply Hl.
Qed.

(** Last write wins. *)
Lemma foldl_load_line_last (key value line : string) (pre post : list string)
      (env : gmap string string) :
  entry_of_line line = Some (key, value) ->
  Forall (fun l => fst <$> entry_of_line l ≠ Some key) post ->
  foldl load_line env (pre ++ line :: post) !! key = Some value.
Proof.
  intros Hline Hpost. rewrite foldl_load_line_app. simpl.
  rewrite (foldl_load_line_frame key post Hpost).
  unfold load_line at 1. rewrite Hline. apply lookup_insert_eq.
Qed.

Lemma load_env_file_file (env_path content : string) (w : world) :
  fs w !! env_path = Some (File content) ->
  load_env_file env_path w
  = (Ret (foldl load_line ∅ (text_lines content)), w).
Proof.
  intros H. unfold load_env_file, bind, os_path_exists, read_text, ret.
  rewrite H. rewrite bool_decide_eq_true_2 by eauto. simpl. now rewrite H.
Qed.

Lemma load_env_file_absent (env_path : string) (w : world) :
  fs w !! env_path = None ->
  load_env_file env_path w
  = (Exit 1, mkWorld (fs w) (trace w ++ [EPrint (MEnvNotFound env_path)])).
Proof.
  intros H. unfold load_env_file, bind, os_path_exists, print, emit, sys_exit.
  rewrite H. rewrite bool_decide_eq_false_2; [reflexivity|].
  intros [x Hx]. discriminate.
Qed.

(** ** [parse_database_url] *)

Section ParseFacts.

Variable bracketed_host_ok : string -> bool.
Variable nfkc_ok : string -> bool.

(** The function raises exactly when [urlparse] or the [port] accessor
    does; otherwise it returns the record built from the five accessors. *)
Lemma parse_database_url_unfold (url : string) :
  parse_database_url bracketed_host_ok nfkc_ok url
  = (parsed <-? urlparse bracketed_host_ok nfkc_ok url;
     p <-? port parsed;
     Val (mkConfig (or_str (hostname parsed) "localhost")
                   (or_int p 5432)
                   (Py.split_head "?"
                      (Py.lstrip_by (Ascii.eqb "/") (path parsed)))
                   (username parsed) (password parsed))).
Proof. reflexivity. Qed.

Lemma hostname_absent (parsed : ParseResult) :
  fst (hostinfo parsed) = EmptyString -> hostname parsed = None.
Proof. unfold hostname. now intros ->. Qed.

Lemma port_absent (parsed : ParseResult) :
  snd (hostinfo parsed) = None -> port parsed = Val None.
Proof. unfold port. now intros ->. Qed.

(** The only exception of the parser is [ValueError]. *)
Lemma urlsplit_raises_ValueError (url : string) (e : exn) :
  urlsplit bracketed_host_ok nfkc_ok url = Exc e -> e = ValueError.
Proof.
  unfold urlsplit, check_bracketed_netloc, checknetloc, check_bracketed_host,
    pyres_bind.
  repeat (case_match; simplify_eq/=; try done); congruence.
Qed.

Lemma parse_database_url_raises_ValueError (url : string) (e : exn) :
  parse_database_url bracketed_host_ok nfkc_ok url = Exc e -> e = ValueError.
Proof.
  rewrite parse_database_url_unfold. unfold urlparse, pyres_bind.
  destruct (urlsplit bracketed_host_ok nfkc_ok url) as [r|e'] eqn:Hsplit.
  - simpl. unfold port.
    repeat (case_match; simplify_eq/=; try done); congruence.
  - intros [= <-]. exact (urlsplit_raises_ValueError _ _ Hsplit).
Qed.

(** [urlparse] accepts every plain URL. *)
Lemma urlparse_plain_url (url : string) :
  Py.forallb plain_url_char url = true ->
  exists parsed : ParseResult,
    urlparse bracketed_host_ok nfkc_ok url = Val parsed.
Proof.
  intros Hplain.
  assert (Hsplit : exists r, urlsplit bracketed_host_ok nfkc_ok url = Val r).
  { unfold urlsplit.
    set (url2 := Py.remove_char _ (Py.remove_char _ (Py.remove_char _ _))).
    assert (H2 : Py.forallb plain_url_char url2 = true)
      by now repeat apply forallb_remove_char; apply forallb_lstrip_by.
    set (su := match Py.cut ":" url2 with Some _ => _ | None => _ end).
    assert (H3 : Py.forallb plain_url_char (snd su) = true).
    { subst su. destruct (Py.cut ":" url2) as [[pre post]|] eqn:Hcut; [|exact H2].
      destruct (forallb_cut _ _ _ _ _ Hcut H2) as [_ Hpost].
      destruct pre; [exact H2|]. now case_match. }
    destruct su as [scheme url3]. simpl in H3.
    assert (Hnet : forall rest,
               Py.forallb plain_url_char rest = true ->
               let netloc := fst (splitnetloc rest) in
               Py.contains "[" netloc = false
               /\ Py.contains "]" netloc = false
               /\ checknetloc nfkc_ok netloc = Val tt).
    { intros rest Hrest. destruct (forallb_break _ is_netloc_delim _ Hrest) as [Hl _].
      cbv zeta. unfold splitnetloc. split; [|split].
      - now apply (forallb_not_contains plain_url_char).
      - now apply (forallb_not_contains plain_url_char).
      - unfold checknetloc.
        rewrite (forallb_impl plain_url_char (fun c => (Py.code c <? 128)%N)), orb_true_r;
          [reflexivity| |exact Hl].
        intros c Hc. unfold plain_url_char in Hc.
        now apply andb_true_iff in Hc as [[Hc _]%andb_true_iff _]. }
    destruct (Py.after_slashes url3) as [rest|] eqn:Hsl.
    - assert (Hrest : Py.forallb plain_url_char rest = true).
      { destruct url3 as [|c1 [|c2 r]]; try discriminate Hsl.
        simpl in Hsl. destruct (Ascii.eqb c1 "/" && Ascii.eqb c2 "/");
          [|discriminate Hsl].
        injection Hsl as ->. simpl in H3.
        now apply andb_true_iff in H3 as [_ [_ H3]%andb_true_iff]. }
      specialize (Hnet rest Hrest). cbv zeta in Hnet.
      destruct Hnet as (Hob & Hcb & Hchk).
      destruct (splitnetloc rest) as [netloc url'] eqn:Hsn. simpl in *.
      rewrite Hob, Hcb. simpl. repeat case_match; simpl; rewrite Hchk; eauto.
    - simpl. repeat case_match; eauto. }
  destruct Hsplit as [[[[[scheme netloc] path] query] fragment] Hsplit].
  unfold urlparse. rewrite Hsplit. simpl. case_match; case_match; eauto.
Qed.

Lemma int_of_digits_nonneg (s : string) :
  Py.forallb Py.is_ascii_digit s = true -> (0 <= Py.int_of_digits s)%Z.
Proof.
  unfold Py.int_of_digits. intros Hs.
  enough (Hgo : forall acc : Z,
             (0 <= acc)%Z ->
             (0 <= (fix go (acc : Z) (s : string) : Z :=
                      match s with
                      | EmptyString => acc
                      | String c s' => go (10 * acc + Py.digit_val c)%Z s'
                      end) acc s)%Z)
    by (apply Hgo; lia).
  revert Hs.
  induction s as [|c s IH]; intros Hs acc Hacc; simpl in *; [exact Hacc|].
  apply andb_true_iff in Hs as [Hc Hs]. apply (IH Hs).
  unfold Py.is_ascii_digit, Py.in_range in Hc. unfold Py.digit_val.
  apply andb_true_iff in Hc as [Hlo _]. apply N.leb_le in Hlo. lia.
Qed.

(** What the [port] accessor makes of a port text. *)
Lemma port_of_text (parsed : ParseResult) (text : string) :
  snd (hostinfo parsed) = Some text ->
  port parsed
  = if is_port_number text then Val (Some (Py.int_of_digits text))
    else Exc ValueError.
Proof.
  intros Htext. unfold port, is_port_number. rewrite Htext.
  destruct (Py.forallb Py.is_ascii_digit text) eqn:Hd; [|reflexivity].
  pose proof (int_of_digits_nonneg _ Hd) as Hn. simpl.
  destruct (int_max_str_digits <? Z.of_nat (String.length text))%Z eqn:Hlen.
  - apply Z.ltb_lt in Hlen.
    now rewrite (proj2 (Z.leb_gt _ _) Hlen).
  - apply Z.ltb_ge in Hlen. rewrite (proj2 (Z.leb_le _ _) Hlen).
    rewrite (proj2 (Z.leb_le _ _) Hn). simpl.
    now destruct (Py.int_of_digits text <=? 65535)%Z.
Qed.

(** C1: for ["postgres://u:p@myhost:5433/mydb"] the parser returns host
    ["myhost"], port 5433, database ["mydb"], user ["u"], password ["p"]. *)
Theorem parse_database_url_full_example :
  parse_database_url bracketed_host_ok nfkc_ok "postgres://u:p@myhost:5433/mydb"
  = Val (mkConfig "myhost" 5433 "mydb" (Some "u") (Some "p")).
Proof. reflexivity. Qed.

(** C6: for ["postgres://u@localhost/mydb"] the parser returns host
    ["localhost"], port 5432, database ["mydb"], user ["u"] and no
    password.  In general, for a URL that [urlparse] accepts: a record
    returned for a URL without a host has host ["localhost"], and for a
    URL without a port the parser returns a record with port 5432. *)
Theorem parse_database_url_defaults :
  parse_database_url bracketed_host_ok nfkc_ok "postgres://u@localhost/mydb"
  = Val (mkConfig "localhost" 5432 "mydb" (Some "u") None)
  /\ forall (url : string) (parsed : ParseResult),
      urlparse bracketed_host_ok nfkc_ok url = Val parsed ->
      (forall cfg : db_config,
          parse_database_url bracketed_host_ok nfkc_ok url = Val cfg ->
          fst (hostinfo parsed) = EmptyString ->
          cfg_host cfg = "localhost")
      /\ (snd (hostinfo parsed) = None ->
          exists cfg : db_config,
            parse_database_url bracketed_host_ok nfkc_ok url = Val cfg
            /\ cfg_port cfg = 5432%Z).
Proof.
  split; [reflexivity|].
  intros url parsed Hparsed.
  rewrite parse_database_url_unfold, Hparsed. simpl. split.
  - intros cfg Hcfg Hhost. rewrite (hostname_absent _ Hhost) in Hcfg.
    destruct (port parsed); simpl in Hcfg; [|discriminate].
    now inversion Hcfg.
  - intros Hport. rewrite (port_absent _ Hport). simpl.
    eexists. split; reflexivity.
Qed.

(** C4, amended: [urlparse] accepts every ASCII URL without square
    brackets.  For every URL that [urlparse] accepts and whose port text is
    absent or a port number (ASCII digits, at most 4300 of them, value at
    most 65535), the parser returns a record; in it a missing host is
    ["localhost"] and a missing port is 5432.  A URL whose port text is
    not a port number, or that [urlparse] rejects, makes the parser raise
    [ValueError]. *)
Theorem parse_database_url_degrades (url : string) :
  (Py.forallb plain_url_char url = true ->
   exists parsed : ParseResult,
     urlparse bracketed_host_ok nfkc_ok url = Val parsed)
  /\ (forall parsed : ParseResult,
         urlparse bracketed_host_ok nfkc_ok url = Val parsed ->
         snd (hostinfo parsed) = None
         \/ (exists text : string,
                snd (hostinfo parsed) = Some text
                /\ is_port_number text = true) ->
         exists cfg : db_config,
           parse_database_url bracketed_host_ok nfkc_ok url = Val cfg
           /\ (fst (hostinfo parsed) = EmptyString ->
               cfg_host cfg = "localhost")
           /\ (snd (hostinfo parsed) = None -> cfg_port cfg = 5432%Z))
  /\ (forall (parsed : ParseResult) (text : string),
         urlparse bracketed_host_ok nfkc_ok url = Val parsed ->
         snd (hostinfo parsed) = Some text ->
         is_port_number text = false ->
         parse_database_url bracketed_host_ok nfkc_ok url = Exc ValueError)
  /\ (forall e : exn,
         urlparse bracketed_host_ok nfkc_ok url = Exc e ->
         parse_database_url bracketed_host_ok nfkc_ok url = Exc ValueError).
Proof.
  split; [exact (urlparse_plain_url url)|].
  rewrite parse_database_url_unfold. split; [|split].
  - intros parsed Hparsed Hport. rewrite Hparsed. simpl.
    assert (Hp : exists p : option Z,
               port parsed = Val p
               /\ (snd (hostinfo parsed) = None -> p = None)).
    { destruct Hport as [Hnone|(text & Htext & Hok)].
      - exists None. split; [exact (port_absent _ Hnone)|reflexivity].
      - exists (Some (Py.int_of_digits text)).
        rewrite (port_of_text _ _ Htext), Hok. split; [reflexivity|].
        rewrite Htext. discriminate. }
    destruct Hp as (p & -> & Hdefault). simpl.
    eexists. split; [reflexivity|]. simpl. split.
    + intros Hhost. now rewrite (hostname_absent _ Hhost).
    + intros Hnone. now rewrite (Hdefault Hnone).
  - intros parsed text Hparsed Htext Hbad. rewrite Hparsed. simpl.
    now rewrite (port_of_text _ _ Htext), Hbad.
  - intros e He. rewrite He. simpl. f_equal.
    unfold urlparse, pyres_bind in He.
    destruct (urlsplit bracketed_host_ok nfkc_ok url) as [r|e'] eqn:Hsplit.
    + repeat case_match; discriminate.
    + injection He as <-. exact (urlsplit_raises_ValueError _ _ Hsplit).
Qed.

End ParseFacts.

(** A URL without a host and without a port: both defaults apply. *)
Lemma parse_database_url_defaults_witness :
  urlparse (fun _ => true) (fun _ => true) no_host_url = Val no_host_parsed
  /\ fst (hostinfo no_host_parsed) = EmptyString
  /\ snd (hostinfo no_host_parsed) = None
  /\ cfg_host no_host_cfg = "localhost"
  /\ exists cfg : db_config,
      parse_database_url (fun _ => true) (fun _ => true) no_host_url = Val cfg
      /\ cfg_port cfg = 5432%Z.
Proof.
  pose proof (proj2 (parse_database_url_defaults (fun _ => true) (fun _ => true))
                no_host_url no_host_parsed eq_refl)
    as [Hhost Hport].
  split; [reflexivity|]. split; [reflexivity|]. split; [reflexivity|].
  split; [apply Hhost | apply Hport]; reflexivity.
Defined.

(** C4 as stated fails: a URL with no host and a port that is not a number
    makes the parser raise [ValueError]. *)
Lemma parse_database_url_raises :
  parse_database_url (fun _ => true) (fun _ => true) "postgres://u:p@:port/mydb"
  = Exc ValueError.
Proof. reflexivity. Qed.

(** A URL with neither host nor port; one whose port is not a number;
    one whose port has more digits than [int] reads; and one that
    [urlparse] rejects. *)
Lemma parse_database_url_degrades_witness :
  (exists cfg : db_config,
      parse_database_url (fun _ => true) (fun _ => true) "postgres:///mydb"
      = Val cfg
      /\ cfg_host cfg = "localhost"
      /\ cfg_port cfg = 5432%Z)
  /\ parse_database_url (fun _ => true) (fun _ => true)
       "postgres://u:p@h:5x/mydb" = Exc ValueError
  /\ parse_database_url (fun _ => true) (fun _ => true) long_port_url
     = Exc ValueError
  /\ parse_database_url (fun _ => true) (fun _ => true) "postgres://[h/mydb"
     = Exc ValueError.
Proof.
  split; [|split; [|split]].
  - destruct (parse_database_url_degrades (fun _ => true) (fun _ => true)
                "postgres:///mydb")
      as (_ & Hrecord & _).
    destruct (Hrecord (mkParseResult "postgres" EmptyString "/mydb"
                         EmptyString EmptyString EmptyString)
                eq_refl (or_introl eq_refl))
      as (cfg & Hcfg & Hhost & Hport).
    exists cfg. split; [exact Hcfg|]. split; [apply Hhost | apply Hport];
      reflexivity.
  - destruct (parse_database_url_degrades (fun _ => true) (fun _ => true)
                "postgres://u:p@h:5x/mydb")
      as (_ & _ & Hraise & _).
    apply (Hraise (mkParseResult "postgres" "u:p@h:5x" "/mydb"
                     EmptyString EmptyString EmptyString) "5x");
      reflexivity.
  - destruct (parse_database_url_degrades (fun _ => true) (fun _ => true)
                long_port_url)
      as (_ & _ & Hraise & _).
    apply (Hraise (mkParseResult "postgres"
                     ("u:p@h:" +:+ zeros 4297 +:+ "5433") "/mydb"
                     EmptyString EmptyString EmptyString)
                  (zeros 4297 +:+ "5433"));
      vm_compute; reflexivity.
  - destruct (parse_database_url_degrades (fun _ => true) (fun _ => true)
                "postgres://[h/mydb")
      as (_ & _ & _ & Hreject).
    apply (Hreject ValueError). reflexivity.
Defined.

(** ** [load_env_file] *)

(** C7: a line [KEY=qVALUEq] of the environment file, [q] a double or a
    single quote, maps the trimmed key to [VALUE]: one layer of quotes is
    removed and every character between them is kept (when no later line
    assigns the key again). *)
Theorem load_env_file_quoted_value
        (w : world) (env_path content : string) (pre post : list string)
        (k v eol : string) (q : ascii) :
  fs w !! env_path = Some (File content) ->
  text_lines content
  = pre ++ (k +:+ String "=" (String q (v +:+ String q eol))) :: post ->
  Py.contains "=" k = false ->
  Py.startswith "#" (Py.lstrip_by Py.isspace k) = false ->
  Py.forallb Py.isspace eol = true ->
  q = dquote \/ q = squote ->
  not_reassigned (Py.strip k) post ->
  exists env : gmap string string,
    load_env_file env_path w = (Ret env, w)
    /\ env !! Py.strip k = Some v.
Proof.
  intros Hfile Hlines Hk Hhash Heol Hq Hpost.
  eexists. split; [exact (load_env_file_file _ _ _ Hfile)|].
  rewrite Hlines. apply foldl_load_line_last; [|exact Hpost].
  now apply entry_of_quoted_line.
Qed.

(** C8: when a key is assigned by more than one line of the environment
    file, the mapping holds the value of the last of them, and no key
    occurs twice in the mapping. *)
Theorem load_env_file_last_write_wins
        (w : world) (env_path content : string)
        (l1 l2 l3 : list string) (a b key v1 v2 : string) :
  fs w !! env_path = Some (File content) ->
  text_lines content = l1 ++ a :: l2 ++ b :: l3 ->
  entry_of_line a = Some (key, v1) ->
  entry_of_line b = Some (key, v2) ->
  not_reassigned key l3 ->
  exists env : gmap string string,
    load_env_file env_path w = (Ret env, w)
    /\ env !! key = Some v2
    /\ NoDup (map_to_list env).*1.
Proof.
  intros Hfile Hlines Ha Hb Hpost.
  eexists. split; [exact (load_env_file_file _ _ _ Hfile)|]. split.
  - rewrite Hlines.
    replace (l1 ++ a :: l2 ++ b :: l3) with ((l1 ++ a :: l2) ++ b :: l3)
      by now rewrite <- app_assoc.
    now apply foldl_load_line_last with (value := v2).
  - apply NoDup_fst_map_to_list.
Qed.

(** C9: a line whose trimmed value is one quote character maps its key to
    the empty string: the first and the last character of the value are
    that same quote, and the slice between them is empty. *)
Theorem load_env_file_lone_quote
        (w : world) (env_path content : string) (pre post : list string)
        (line key : string) (q : ascii) :
  fs w !! env_path = Some (File content) ->
  text_lines content = pre ++ line :: post ->
  split_line line = Some (key, String q EmptyString) ->
  q = dquote \/ q = squote ->
  not_reassigned key post ->
  exists env : gmap string string,
    load_env_file env_path w = (Ret env, w)
    /\ env !! key = Some EmptyString.
Proof.
  intros Hfile Hlines Hsplit Hq Hpost.
  eexists. split; [exact (load_env_file_file _ _ _ Hfile)|].
  rewrite Hlines. apply foldl_load_line_last; [|exact Hpost].
  unfold entry_of_line. rewrite Hsplit.
  destruct Hq as [-> | ->]; reflexivity.
Qed.

Lemma load_env_file_quoted_value_witness :
  exists env : gmap string string,
    load_env_file "/p/.env" sample_world = (Ret env, sample_world)
    /\ env !! "KEY" = Some "value with spaces".
Proof.
  apply (load_env_file_quoted_value sample_world "/p/.env" sample_env
           ["# settings" +:+ nl; "DUP=first" +:+ nl]
           ["DUP = " +:+ quoted squote "second" +:+ nl;
            "Q=" +:+ String dquote EmptyString]
           "KEY" "value with spaces" nl dquote).
  - vm_compute. reflexivity.
  - vm_compute. reflexivity.
  - reflexivity.
  - reflexivity.
  - reflexivity.
  - left. reflexivity.
  - repeat constructor; intros H; vm_compute in H; discriminate H.
Defined.

Lemma load_env_file_last_write_wins_witness :
  exists env : gmap string string,
    load_env_file "/p/.env" sample_world = (Ret env, sample_world)
    /\ env !! "DUP" = Some "second"
    /\ NoDup (map_to_list env).*1.
Proof.
  apply (load_env_file_last_write_wins sample_world "/p/.env" sample_env
           ["# settings" +:+ nl]
           ["KEY=" +:+ quoted dquote "value with spaces" +:+ nl]
           ["Q=" +:+ String dquote EmptyString]
           ("DUP=first" +:+ nl)
           ("DUP = " +:+ quoted squote "second" +:+ nl)
           "DUP" "first" "second").
  - vm_compute. reflexivity.
  - vm_compute. reflexivity.
  - vm_compute. reflexivity.
  - vm_compute. reflexivity.
  - repeat constructor; intros H; vm_compute in H; discriminate H.
Defined.

Lemma load_env_file_lone_quote_witness :
  exists env : gmap string string,
    load_env_file "/p/.env" sample_world = (Ret env, sample_world)
    /\ env !! "Q" = Some EmptyString.
Proof.
  apply (load_env_file_lone_quote sample_world "/p/.env" sample_env
           ["# settings" +:+ nl; "DUP=first" +:+ nl;
            "KEY=" +:+ quoted dquote "value with spaces" +:+ nl;
            "DUP = " +:+ quoted squote "second" +:+ nl]
           []
           ("Q=" +:+ String dquote EmptyString) "Q" dquote).
  - vm_compute. reflexivity.
  - vm_compute. reflexivity.
  - vm_compute. reflexivity.
  - left. reflexivity.
  - constructor.
Defined.

(** ** The script as a whole *)

Lemma path_join_ne (dir name : string) : path_join dir name ≠ dir.
Proof.
  intros H. apply (f_equal String.length) in H.
  unfold path_join in H. rewrite length_app_str in H. simpl in H. lia.
Qed.

Lemma write_text_inv (p content : string) (w : world) (o : outcome unit)
      (w' : world) :
  write_text p content w = (o, w') ->
  (o = Ret tt
   /\ w' = mkWorld (<[p := File content]> (fs w))
                   (trace w ++ [EWrite p content]))
  \/ (exists e, o = Raise e /\ w' = w).
Proof.
  unfold write_text. intros H.
  destruct (fs w !! p) as [[c|]|];
    try destruct (parent_error (fs w) p);
    inversion H; subst; eauto.
Qed.

Lemma mkdir_exist_ok_inv (p : string) (w : world) (o : outcome unit)
      (w' : world) :
  mkdir_exist_ok p w = (o, w') ->
  (o = Ret tt /\ fs w !! p = Some Dir /\ w' = w)
  \/ (o = Ret tt /\ fs w !! p = None
      /\ w' = mkWorld (<[p := Dir]> (fs w)) (trace w ++ [EMkdir p]))
  \/ (exists e, o = Raise e /\ w' = w).
Proof.
  unfold mkdir_exist_ok. intros H.
  destruct (fs w !! p) as [[c|]|] eqn:E;
    try destruct (parent_error (fs w) p);
    inversion H; subst; eauto 8.
Qed.

Lemma handled_inv (e : exn) (w : world) (o : outcome bool) (w' : world) :
  handled e w = (o, w') ->
  (o = Ret false \/ o = Raise e)
  /\ fs w' = fs w
  /\ exists msgs : list message, trace w' = trace w ++ map EPrint msgs.
Proof.
  unfold handled. intros H.
  destruct e; simpl in H; inversion H; subst; simpl;
    rewrite <- ?app_assoc; simpl;
    (split; [auto|split; [reflexivity|]]);
    try (exists []; simpl; now rewrite app_nil_r).
  - now exists [MDockerNotFound; MDockerHint; MDockerMac;
                MDockerWindows; MDockerLinux].
  - now exists [MDumpError; MDumpErrorText stderr].
Qed.

Lemma not_in_prints_spawn (argv : list string) (msgs : list message) :
  ~ In (ESpawn argv) (map EPrint msgs).
Proof.
  induction msgs as [|m msgs IH]; simpl; [tauto|].
  intros [H|H]; [discriminate|tauto].
Qed.

Lemma not_in_prints_write (p c : string) (msgs : list message) :
  ~ In (EWrite p c) (map EPrint msgs).
Proof.
  induction msgs as [|m msgs IH]; simpl; [tauto|].
  intros [H|H]; [discriminate|tauto].
Qed.

(** Split a membership in a trace into its cases, dropping the events of
    another kind. *)
Ltac in_trace H :=
  repeat (rewrite in_app_iff in H || simpl in H);
  repeat match type of H with
         | _ \/ _ => destruct H as [H|H]
         end;
  try discriminate H;
  try (exfalso; exact H);
  try (exfalso; exact (not_in_prints_spawn _ _ H));
  try (exfalso; exact (not_in_prints_write _ _ _ H)).

Section ScriptFacts.

Variable bracketed_host_ok : string -> bool.
Variable nfkc_ok : string -> bool.
Variable run_process : list string -> proc_result.

(** [dump_schema_docker], path by path. *)
Lemma dump_schema_docker_unfold (cfg : db_config) (out : string) (w : world) :
  dump_schema_docker run_process cfg out w
  = match argv_of (docker_cmd cfg) with
    | None => (Raise TypeError, mkWorld (fs w) (trace w ++ banner cfg out))
    | Some argv =>
        let w2 := mkWorld (fs w) (trace w ++ banner cfg out ++ [ESpawn argv]) in
        match run_process argv with
        | ProcNotStarted e => handled e w2
        | ProcExited returncode stdout stderr =>
            if (returncode =? 0)%Z then
              match write_text out (universal_newlines stdout) w2 with
              | (Ret _, w3) =>
                  (Ret true,
                   mkWorld (fs w3)
                     (trace w3 ++ [EPrint (MSuccess out);
                                   EPrint (MFileSize (BytesOf (universal_newlines stdout)))]))
              | (Exit status, w3) => (Exit status, w3)
              | (Raise e, w3) => handled e w3
              end
            else handled (CalledProcessError returncode
                            (universal_newlines stderr)) w2
        end
    end.
Proof.
  unfold dump_schema_docker, subprocess_run, try_except, bind, print, emit,
    handled, banner.
  destruct (argv_of (docker_cmd cfg)) as [argv|]; simpl;
    rewrite <- !app_assoc; simpl; [|reflexivity].
  destruct (run_process argv) as [rc stdout stderr|e]; simpl; [|reflexivity].
  destruct (rc =? 0)%Z; simpl; [|reflexivity].
  match goal with
  | |- context [write_text out ?text ?w2] =>
      destruct (write_text out text w2) as [o w3] eqn:Hw
  end.
  apply write_text_inv in Hw as [[-> ->]|[e [-> ->]]]; simpl.
  - unfold getsize. simpl. rewrite lookup_insert_eq. simpl.
    now rewrite <- !app_assoc.
  - reflexivity.
Qed.

(** [dump_schema_docker] ends in one of three ways: no child was started
    (a [None] among the arguments), the child's output was written, or
    the child was started and nothing was written. *)
Lemma dump_schema_docker_summary (cfg : db_config) (out : string)
      (w : world) (o : outcome bool) (w' : world) :
  dump_schema_docker run_process cfg out w = (o, w') ->
  (argv_of (docker_cmd cfg) = None
   /\ o = Raise TypeError
   /\ fs w' = fs w
   /\ trace w' = trace w ++ banner cfg out)
  \/ exists argv : list string,
      argv_of (docker_cmd cfg) = Some argv
      /\ ((exists stdout stderr : string,
              run_process argv = ProcExited 0 stdout stderr
              /\ o = Ret true
              /\ fs w' = <[out := File (universal_newlines stdout)]> (fs w)
              /\ trace w'
                 = trace w ++ banner cfg out
                   ++ [ESpawn argv; EWrite out (universal_newlines stdout);
                       EPrint (MSuccess out);
                       EPrint (MFileSize (BytesOf (universal_newlines stdout)))])
          \/ ((o = Ret false \/ exists e, o = Raise e)
              /\ fs w' = fs w
              /\ exists msgs : list message,
                  trace w'
                  = trace w ++ banner cfg out
                    ++ ESpawn argv :: map EPrint msgs)).
Proof.
  rewrite dump_schema_docker_unfold.
  destruct (argv_of (docker_cmd cfg)) as [argv|]; [|intros [= <- <-]; now left].
  intros H. right. exists argv. split; [reflexivity|].
  assert (Hhandled : forall e,
             handled e (mkWorld (fs w) (trace w ++ banner cfg out ++ [ESpawn argv]))
             = (o, w') ->
             (o = Ret false \/ exists e, o = Raise e)
             /\ fs w' = fs w
             /\ exists msgs : list message,
                 trace w'
                 = trace w ++ banner cfg out ++ ESpawn argv :: map EPrint msgs).
  { intros e He. apply handled_inv in He as ([-> | ->] & Hfs & msgs & Htr);
      (split; [eauto|split; [exact Hfs|]]);
      exists msgs; rewrite Htr; simpl; now rewrite <- !app_assoc. }
  cbv zeta in H.
  destruct (run_process argv) as [rc stdout stderr|e]; [|right; eauto].
  destruct (rc =? 0)%Z eqn:Hrc; [|right; eauto].
  apply Z.eqb_eq in Hrc as ->.
  destruct (write_text out (universal_newlines stdout) _) as [ow w3] eqn:Hw.
  apply write_text_inv in Hw as [[-> ->]|[e [-> ->]]].
  - left. exists stdout, stderr. inversion H; subst. simpl.
    rewrite <- !app_assoc. simpl. auto.
  - right. eauto.
Qed.

(** [main] either stops before the dump (with status 1, having touched no
    file), or makes sure of the docs directory and runs the dump. *)
Lemma script_summary (root : string) (files : gmap string node)
      (st : Z) (w' : world) :
  run_script bracketed_host_ok nfkc_ok run_process root files = (st, w') ->
  (st = 1%Z /\ fs w' = files
   /\ exists msgs : list message, trace w' = map EPrint msgs)
  \/ exists (content : string) (cfg : db_config) (w2 : world) (o : outcome bool),
      files !! path_join root ".env" = Some (File content)
      /\ ((files !! path_join root "docs" = Some Dir
           /\ w2 = mkWorld files (greeting root))
          \/ (files !! path_join root "docs" = None
              /\ w2 = mkWorld (<[path_join root "docs" := Dir]> files)
                              (greeting root ++ [EMkdir (path_join root "docs")])))
      /\ dump_schema_docker run_process cfg (path_join (path_join root "docs") "prism.sql") w2 = (o, w')
      /\ st = match o with
              | Ret true => 0%Z
              | Exit status => status
              | _ => 1%Z
              end.
Proof.
  unfold run_script, main, bind, print, emit. simpl.
  destruct (load_env_file _ _) as [oenv w1] eqn:Hload.
  unfold load_env_file, bind, os_path_exists, read_text, print, emit,
    sys_exit, ret in Hload. simpl in Hload.
  destruct (files !! path_join root ".env") as [[content|]|] eqn:Henv.
  - rewrite bool_decide_eq_true_2 in Hload by eauto. simpl in Hload.
    rewrite Henv in Hload. inversion Hload; subst; clear Hload.
    set (url := or_str (foldl load_line ∅ (text_lines content) !! "DATABASE_URL") EmptyString).
    destruct (Py.is_empty url) eqn:Hurl; simpl.
    { intros [= <- <-]. left. simpl. repeat split.
      now exists [MLoadingEnv (path_join root ".env"); MNoDatabaseUrl]. }
    destruct (parse_database_url bracketed_host_ok nfkc_ok url) as [cfg|e];
      unfold lift, ret, raise; simpl.
    2:{ intros [= <- <-]. left. simpl. repeat split.
        now exists [MLoadingEnv (path_join root ".env")]. }
    destruct (mkdir_exist_ok _ _) as [om w2] eqn:Hmk.
    apply mkdir_exist_ok_inv in Hmk
      as [(-> & Hd & ->)|[(-> & Hd & ->)|(e & -> & ->)]]; simpl in *.
    + destruct (dump_schema_docker run_process _ _ _) as [o w3] eqn:Hdump.
      intros Hst. right. eexists content, cfg, _, o.
      split; [reflexivity|]. split; [left; eauto|]. split.
      * destruct o as [[]| |]; inversion Hst; subst; exact Hdump.
      * destruct o as [[]| |]; inversion Hst; reflexivity.
    + destruct (dump_schema_docker run_process _ _ _) as [o w3] eqn:Hdump.
      intros Hst. right. eexists content, cfg, _, o.
      split; [reflexivity|]. split; [right; eauto|]. split.
      * destruct o as [[]| |]; inversion Hst; subst; exact Hdump.
      * destruct o as [[]| |]; inversion Hst; reflexivity.
    + intros [= <- <-]. left. simpl. repeat split.
      now exists [MLoadingEnv (path_join root ".env")].
  - rewrite bool_decide_eq_true_2 in Hload by eauto. simpl in Hload.
    rewrite Henv in Hload. inversion Hload; subst; clear Hload.
    intros [= <- <-]. left. simpl. repeat split.
    now exists [MLoadingEnv (path_join root ".env")].
  - rewrite bool_decide_eq_false_2 in Hload by (intros [x Hx]; discriminate).
    simpl in Hload. inversion Hload; subst; clear Hload.
    intros [= <- <-]. left. simpl. repeat split.
    now exists [MLoadingEnv (path_join root ".env");
                MEnvNotFound (path_join root ".env")].
Qed.

(** A run in which a child was started: the docs directory was seen or
    made first, and the run ended with the output written (status 0) or
    with nothing written (status 1). *)
Lemma script_spawn_summary (root : string) (files : gmap string node)
      (st : Z) (w' : world) (argv : list string) :
  run_script bracketed_host_ok nfkc_ok run_process root files = (st, w') ->
  In (ESpawn argv) (trace w') ->
  exists (files2 : gmap string node) (t0 : list event) (cfg : db_config),
    ((files !! path_join root "docs" = Some Dir
      /\ files2 = files /\ t0 = greeting root)
     \/ (files !! path_join root "docs" = None
         /\ files2 = <[path_join root "docs" := Dir]> files
         /\ t0 = greeting root ++ [EMkdir (path_join root "docs")]))
    /\ argv_of (docker_cmd cfg) = Some argv
    /\ ((exists stdout stderr : string,
            run_process argv = ProcExited 0 stdout stderr
            /\ st = 0%Z
            /\ fs w'
               = <[path_join (path_join root "docs") "prism.sql"
                   := File (universal_newlines stdout)]> files2
            /\ trace w'
               = t0 ++ banner cfg (path_join (path_join root "docs") "prism.sql")
                 ++ [ESpawn argv;
                     EWrite (path_join (path_join root "docs") "prism.sql")
                            (universal_newlines stdout);
                     EPrint (MSuccess
                               (path_join (path_join root "docs") "prism.sql"));
                     EPrint (MFileSize (BytesOf (universal_newlines stdout)))])
        \/ (st = 1%Z
            /\ fs w' = files2
            /\ exists msgs : list message,
                trace w'
                = t0 ++ banner cfg (path_join (path_join root "docs") "prism.sql")
                  ++ ESpawn argv :: map EPrint msgs)).
Proof.
  intros Hrun Hin.
  apply script_summary in Hrun
    as [(-> & Hfs & msgs & Htr)
       |(content & cfg & w2 & o & Henv & Hmk & Hdump & ->)].
  { rewrite Htr in Hin. now apply not_in_prints_spawn in Hin. }
  exists (fs w2), (trace w2), cfg.
  split.
  { destruct Hmk as [(Hd & ->)|(Hd & ->)]; simpl; auto. }
  assert (Hpre : ~ In (ESpawn argv) (trace w2)).
  { destruct Hmk as [(Hd & ->)|(Hd & ->)]; simpl; intros H; in_trace H. }
  apply dump_schema_docker_summary in Hdump
    as [(Hnone & -> & Hfs & Htr)
       |(argv0 & Hargv
         & [(stdout & stderr & Hproc & -> & Hfs & Htr)
           |(Ho & Hfs & msgs & Htr)])];
    rewrite Htr in Hin; apply in_app_or in Hin as [Hin|Hin];
    try contradiction; in_trace Hin;
    injection Hin as <-; (split; [exact Hargv|]).
  - left. eauto 6.
  - right. split; [|eauto].
    destruct Ho as [-> | [e ->]]; reflexivity.
Qed.

End ScriptFacts.

Lemma docs_ne_output (root : string) :
  path_join root "docs" ≠ output_path root.
Proof. intros H. symmetry in H. now apply path_join_ne in H. Qed.

(** C2: when the dump command was run and exited with a non-zero status,
    the process exits with status 1, the output file is as it was before
    the run, and the run made no write at all. *)
Theorem failed_dump_writes_nothing
        (bracketed_host_ok nfkc_ok : string -> bool)
        (run_process : list string -> proc_result)
        (root : string) (files : gmap string node) (st : Z) (w' : world)
        (argv : list string) (returncode : Z) (stdout stderr : string) :
  run_script bracketed_host_ok nfkc_ok run_process root files = (st, w') ->
  In (ESpawn argv) (trace w') ->
  run_process argv = ProcExited returncode stdout stderr ->
  returncode ≠ 0%Z ->
  st = 1%Z
  /\ fs w' !! output_path root = files !! output_path root
  /\ forall p c : string, ~ In (EWrite p c) (trace w').
Proof.
  intros Hrun Hin Hproc Hrc.
  destruct (script_spawn_summary _ _ _ _ _ _ _ _ Hrun Hin)
    as (files2 & t0 & cfg & Hdocs & Hargv
        & [(out & err & Hproc' & _)|(-> & Hfs & msgs & Htr)]).
  { rewrite Hproc in Hproc'. injection Hproc' as -> _ _. contradiction. }
  split; [reflexivity|]. split.
  - rewrite Hfs.
    destruct Hdocs as [(_ & -> & _)|(_ & -> & _)]; [reflexivity|].
    apply lookup_insert_ne, docs_ne_output.
  - intros p c H. rewrite Htr in H.
    destruct Hdocs as [(_ & _ & ->)|(_ & _ & ->)]; in_trace H.
Qed.

(** C3: without an environment file the process exits with status 1; no
    child process is started and no file is touched. *)
Theorem missing_env_file_exits
        (bracketed_host_ok nfkc_ok : string -> bool)
        (run_process : list string -> proc_result)
        (root : string) (files : gmap string node) :
  files !! path_join root ".env" = None ->
  exists w' : world,
    run_script bracketed_host_ok nfkc_ok run_process root files = (1%Z, w')
    /\ fs w' = files
    /\ forall argv : list string, ~ In (ESpawn argv) (trace w').
Proof.
  intros Henv. unfold run_script, main, bind, print, emit. simpl.
  rewrite load_env_file_absent by exact Henv. simpl.
  eexists. split; [reflexivity|]. split; [reflexivity|].
  simpl. intros argv H. in_trace H.
Qed.

(** C5, amended: when [dump_schema_docker] reports success, the child
    exited with status 0 and the output file holds exactly the text of
    [result.stdout]: what the child wrote to its standard output with every
    CR LF and every CR read as LF.  When the child's output has no CR, the
    file holds that output character for character. *)
Theorem dump_output_is_stdout
        (run_process : list string -> proc_result)
        (cfg : db_config) (out : string) (w w' : world) :
  dump_schema_docker run_process cfg out w = (Ret true, w') ->
  exists (argv : list string) (stdout stderr : string),
    argv_of (docker_cmd cfg) = Some argv
    /\ run_process argv = ProcExited 0 stdout stderr
    /\ In (EWrite out (universal_newlines stdout)) (trace w')
    /\ fs w' !! out = Some (File (universal_newlines stdout))
    /\ (Py.contains "013" stdout = false -> fs w' !! out = Some (File stdout)).
Proof.
  intros H.
  apply dump_schema_docker_summary in H
    as [(_ & [=] & _)
       |(argv & Hargv
         & [(stdout & stderr & Hproc & _ & Hfs & Htr)
           |([[=]|[e [=]]] & _)])].
  exists argv, stdout, stderr.
  split; [exact Hargv|]. split; [exact Hproc|]. split; [|split].
  - rewrite Htr, !in_app_iff. right. right. simpl. auto.
  - rewrite Hfs. apply lookup_insert_eq.
  - intros Hcr. rewrite Hfs, lookup_insert_eq.
    clear -Hcr. do 2 f_equal.
    induction stdout as [|c t IH]; [reflexivity|].
    simpl in *. apply orb_false_iff in Hcr as [Hc Ht].
    now rewrite Hc, (IH Ht).
Qed.

(** The same for the whole script: exit status 0 means that the output
    file holds the text captured from the child's standard output. *)
Lemma script_success_output
      (bracketed_host_ok nfkc_ok : string -> bool)
      (run_process : list string -> proc_result)
      (root : string) (files : gmap string node) (w' : world) :
  run_script bracketed_host_ok nfkc_ok run_process root files = (0%Z, w') ->
  exists (argv : list string) (stdout stderr : string),
    In (ESpawn argv) (trace w')
    /\ run_process argv = ProcExited 0 stdout stderr
    /\ fs w' !! output_path root = Some (File (universal_newlines stdout)).
Proof.
  intros Hrun.
  apply script_summary in Hrun
    as [([=] & _)|(content & cfg & w2 & o & Henv & Hmk & Hdump & Hst)].
  apply dump_schema_docker_summary in Hdump
    as [(_ & -> & _)
       |(argv & Hargv
         & [(stdout & stderr & Hproc & _ & Hfs & Htr)
           |([->|[e ->]] & _)])];
    try discriminate Hst.
  exists argv, stdout, stderr. split; [|split; [exact Hproc|]].
  - rewrite Htr, !in_app_iff. right. right. simpl. auto.
  - rewrite Hfs. apply lookup_insert_eq.
Qed.

(** C10: in a run that starts the dump command, the docs directory exists
    afterwards; when it was absent it was made before the command was
    started; and when the command did not exit with status 0, the run
    wrote no file, changed nothing but the docs directory, and ended with
    status 1. *)
Theorem docs_dir_made_before_dump
        (bracketed_host_ok nfkc_ok : string -> bool)
        (run_process : list string -> proc_result)
        (root : string) (files : gmap string node) (st : Z) (w' : world)
        (argv : list string) :
  run_script bracketed_host_ok nfkc_ok run_process root files = (st, w') ->
  In (ESpawn argv) (trace w') ->
  fs w' !! path_join root "docs" = Some Dir
  /\ (files !! path_join root "docs" = None ->
      exists t1 t2 t3 : list event,
        trace w'
        = t1 ++ EMkdir (path_join root "docs") :: t2 ++ ESpawn argv :: t3)
  /\ ((forall stdout stderr : string,
          run_process argv ≠ ProcExited 0 stdout stderr) ->
      st = 1%Z
      /\ (forall p c : string, ~ In (EWrite p c) (trace w'))
      /\ fs w' !! output_path root = files !! output_path root
      /\ forall p : string,
          p ≠ path_join root "docs" -> fs w' !! p = files !! p).
Proof.
  intros Hrun Hin.
  destruct (script_spawn_summary _ _ _ _ _ _ _ _ Hrun Hin)
    as (files2 & t0 & cfg & Hdocs & Hargv & Hend).
  assert (Hdir : files2 !! path_join root "docs" = Some Dir).
  { destruct Hdocs as [(Hd & -> & _)|(_ & -> & _)];
      [exact Hd | apply lookup_insert_eq]. }
  assert (Hframe : forall p, p ≠ path_join root "docs" ->
                             files2 !! p = files !! p).
  { intros p Hp. destruct Hdocs as [(_ & -> & _)|(_ & -> & _)];
      [reflexivity | now apply lookup_insert_ne]. }
  split; [|split].
  - destruct Hend as [(out & err & _ & _ & -> & _)|(_ & -> & _)];
      [|exact Hdir].
    rewrite lookup_insert_ne; [exact Hdir|].
    intros H. now apply (docs_ne_output root).
  - intros Habsent.
    destruct Hdocs as [(Hd & _)|(_ & _ & ->)]; [congruence|].
    destruct Hend as [(out & err & _ & _ & _ & ->)|(_ & _ & msgs & ->)];
      exists (greeting root), (banner cfg (output_path root));
      eexists; rewrite <- !app_assoc; reflexivity.
  - intros Hfail.
    destruct Hend as [(out & err & Hproc & _)|(-> & -> & msgs & Htr)];
      [now apply Hfail in Hproc|].
    split; [reflexivity|]. split; [|split].
    + intros p c H. rewrite Htr in H.
      destruct Hdocs as [(_ & _ & ->)|(_ & _ & ->)]; in_trace H.
    + apply Hframe. intros H. now apply (docs_ne_output root).
    + exact Hframe.
Qed.

(** ** The sample project, run *)

Example failing_run_trace :
  fst failing_run = 1%Z
  /\ trace (snd failing_run)
     = [EPrint (MLoadingEnv "/p/.env"); EMkdir "/p/docs";
        EPrint (MDumping "mydb"); EPrint (MHost "myhost" 5433);
        EPrint (MOutputFile "/p/docs/prism.sql"); EPrint MUsingDocker;
        ESpawn project_argv;
        EPrint MDumpError;
        EPrint (MDumpErrorText "pg_dump: error: connection to server failed")].
Proof. split; vm_compute; reflexivity. Qed.

Example working_run_trace :
  fst working_run = 0%Z
  /\ trace (snd working_run)
     = [EPrint (MLoadingEnv "/p/.env"); EMkdir "/p/docs";
        EPrint (MDumping "mydb"); EPrint (MHost "myhost" 5433);
        EPrint (MOutputFile "/p/docs/prism.sql"); EPrint MUsingDocker;
        ESpawn project_argv;
        EWrite "/p/docs/prism.sql" "CREATE TABLE t ();";
        EPrint (MSuccess "/p/docs/prism.sql");
        EPrint (MFileSize (BytesOf "CREATE TABLE t ();"))]
  /\ fs (snd working_run) !! "/p/docs/prism.sql"
     = Some (File "CREATE TABLE t ();").
Proof. repeat split; vm_compute; reflexivity. Qed.

(** A URL without a user: [--username] is followed by [None], and
    [subprocess.run] raises [TypeError] before any child is started. *)
Example run_without_user :
  let files : gmap string node :=
    <["/p/.env" := File "DATABASE_URL=postgres://myhost/mydb"]>
      (<["/p" := Dir]> ∅) in
  let r := run_script (fun _ => true) (fun _ => true) working_docker "/p" files in
  fst r = 1%Z
  /\ trace (snd r)
     = [EPrint (MLoadingEnv "/p/.env"); EMkdir "/p/docs";
        EPrint (MDumping "mydb"); EPrint (MHost "myhost" 5432);
        EPrint (MOutputFile "/p/docs/prism.sql"); EPrint MUsingDocker].
Proof. split; vm_compute; reflexivity. Qed.

Lemma failed_dump_writes_nothing_witness :
  fst failing_run = 1%Z
  /\ fs (snd failing_run) !! output_path "/p" = project_files !! output_path "/p"
  /\ forall p c : string, ~ In (EWrite p c) (trace (snd failing_run)).
Proof.
  apply (failed_dump_writes_nothing (fun _ => true) (fun _ => true)
           failing_docker "/p" project_files
           (fst failing_run) (snd failing_run) project_argv
           1 EmptyString "pg_dump: error: connection to server failed").
  - vm_compute. reflexivity.
  - vm_compute. do 6 right. left. reflexivity.
  - reflexivity.
  - lia.
Defined.

Lemma missing_env_file_exits_witness :
  exists w' : world,
    run_script (fun _ => true) (fun _ => true) working_docker "/p"
               (<["/p" := Dir]> ∅)
    = (1%Z, w')
    /\ fs w' = <["/p" := Dir]> ∅
    /\ forall argv : list string, ~ In (ESpawn argv) (trace w').
Proof.
  apply (missing_env_file_exits (fun _ => true) (fun _ => true)
           working_docker "/p" (<["/p" := Dir]> ∅)).
  vm_compute. reflexivity.
Defined.

Lemma dump_output_is_stdout_witness :
  exists (argv : list string) (stdout stderr : string),
    argv_of (docker_cmd project_cfg) = Some argv
    /\ working_docker argv = ProcExited 0 stdout stderr
    /\ In (EWrite "/p/docs/prism.sql" (universal_newlines stdout))
          (trace (snd (dump_schema_docker working_docker project_cfg
                         "/p/docs/prism.sql" before_dump)))
    /\ fs (snd (dump_schema_docker working_docker project_cfg
                  "/p/docs/prism.sql" before_dump))
       !! "/p/docs/prism.sql"
       = Some (File (universal_newlines stdout))
    /\ (Py.contains "013" stdout = false ->
        fs (snd (dump_schema_docker working_docker project_cfg
                   "/p/docs/prism.sql" before_dump))
        !! "/p/docs/prism.sql"
        = Some (File stdout)).
Proof.
  apply (dump_output_is_stdout working_docker project_cfg
           "/p/docs/prism.sql" before_dump).
  vm_compute. reflexivity.
Defined.

(** C5 as stated fails: a child that ends a line with CR LF makes a
    successful dump whose output file is not what the child wrote: the CR
    is gone. *)
Lemma dump_output_differs_on_crlf :
  crlf_docker project_argv = ProcExited 0 crlf_output EmptyString
  /\ fst (dump_schema_docker crlf_docker project_cfg "/p/docs/prism.sql"
            before_dump) = Ret true
  /\ fs (snd (dump_schema_docker crlf_docker project_cfg "/p/docs/prism.sql"
                before_dump)) !! "/p/docs/prism.sql"
     = Some (File ("CREATE TABLE t ();" +:+ nl +:+ "CREATE TABLE u ();" +:+ nl))
  /\ fs (snd (dump_schema_docker crlf_docker project_cfg "/p/docs/prism.sql"
                before_dump)) !! "/p/docs/prism.sql"
     ≠ Some (File crlf_output).
Proof.
  split; [reflexivity|]. split; [vm_compute; reflexivity|].
  split; [vm_compute; reflexivity|].
  vm_compute. discriminate.
Qed.

Lemma docs_dir_made_before_dump_witness :
  fs (snd failing_run) !! path_join "/p" "docs" = Some Dir
  /\ (project_files !! path_join "/p" "docs" = None ->
      exists t1 t2 t3 : list event,
        trace (snd failing_run)
        = t1 ++ EMkdir (path_join "/p" "docs") :: t2
          ++ ESpawn project_argv :: t3)
  /\ ((forall stdout stderr : string,
          failing_docker project_argv ≠ ProcExited 0 stdout stderr) ->
      fst failing_run = 1%Z
      /\ (forall p c : string, ~ In (EWrite p c) (trace (snd failing_run)))
      /\ fs (snd failing_run) !! output_path "/p"
         = project_files !! output_path "/p"
      /\ forall p : string,
          p ≠ path_join "/p" "docs" ->
          fs (snd failing_run) !! p = project_files !! p).
Proof.
  apply (docs_dir_made_before_dump (fun _ => true) (fun _ => true)
           failing_docker "/p" project_files
           (fst failing_run) (snd failing_run) project_argv).
  - vm_compute. reflexivity.
  - vm_compute. do 6 right. left. reflexivity.
Defined.

(** * Further properties *)

(** ** More on strings *)

Lemma app_Empty_r (s : string) : s +:+ EmptyString = s.
Proof. induction s as [|a s IH]; [reflexivity|]. now rewrite app_String, IH. Qed.

Lemma lstrip_by_all p (s : string) :
  Py.forallb p s = true -> Py.lstrip_by p s = EmptyString.
Proof.
  induction s as [|a s IH]; [reflexivity|].
  simpl. intros [Ha Hs]%andb_true_iff. now rewrite Ha, IH.
Qed.

Lemma rstrip_by_empty p (s : string) :
  Py.rstrip_by p s = EmptyString -> Py.forallb p s = true.
Proof.
  induction s as [|a s IH]; [reflexivity|].
  simpl. destruct (Py.rstrip_by p s) eqn:E; [|discriminate].
  destruct (p a); [|discriminate]. intros _. now rewrite IH.
Qed.

Lemma rstrip_by_idem p (s : string) :
  Py.rstrip_by p (Py.rstrip_by p s) = Py.rstrip_by p s.
Proof.
  induction s as [|a s IH]; [reflexivity|].
  simpl. destruct (Py.rstrip_by p s) as [|b r] eqn:E.
  - destruct (p a) eqn:Ha; [reflexivity|]. simpl. now rewrite Ha.
  - simpl in *. now rewrite IH.
Qed.

(** Stripping on the left and on the right commute. *)
Lemma lstrip_rstrip_comm p (s : string) :
  Py.lstrip_by p (Py.rstrip_by p s) = Py.rstrip_by p (Py.lstrip_by p s).
Proof.
  induction s as [|a s IH]; [reflexivity|].
  simpl. destruct (Py.rstrip_by p s) as [|b r] eqn:E.
  - pose proof (rstrip_by_empty _ _ E) as Hall.
    destruct (p a) eqn:Ha; simpl.
    + now rewrite (lstrip_by_all _ _ Hall).
    + now rewrite ?Ha, E, ?Ha.
  - destruct (p a) eqn:Ha; simpl; rewrite ?Ha.
    + exact IH.
    + now rewrite ?E.
Qed.

Lemma strip_rstrip (s : string) :
  Py.strip (Py.rstrip_by Py.isspace s) = Py.strip s.
Proof.
  unfold Py.strip. now rewrite lstrip_rstrip_comm, rstrip_by_idem.
Qed.

Lemma strip_lstrip (s : string) :
  Py.strip (Py.lstrip_by Py.isspace s) = Py.strip s.
Proof. unfold Py.strip. now rewrite lstrip_by_idem. Qed.

Lemma strip_idem (s : string) : Py.strip (Py.strip s) = Py.strip s.
Proof. unfold Py.strip at 2. now rewrite strip_rstrip, strip_lstrip. Qed.

Lemma rstrip_by_app_keep p (s : string) (c : ascii) (rest : string) :
  p c = false ->
  Py.rstrip_by p (s +:+ String c rest)
  = s +:+ String c (Py.rstrip_by p rest).
Proof.
  intros Hc. induction s as [|a s IH].
  - rewrite !app_Empty. simpl. destruct (Py.rstrip_by p rest); [|reflexivity].
    now rewrite Hc.
  - rewrite !app_String. simpl. rewrite IH. destruct s; reflexivity.
Qed.

Lemma rstrip_by_head p (c : ascii) (s : string) :
  p c = false -> Py.startswith c (Py.rstrip_by p (String c s)) = true.
Proof.
  intros Hc. simpl. destruct (Py.rstrip_by p s); [rewrite Hc|]; simpl;
    apply Ascii.eqb_refl.
Qed.

Lemma contains_rstrip_by p (c : ascii) (s : string) :
  Py.contains c s = false -> Py.contains c (Py.rstrip_by p s) = false.
Proof.
  induction s as [|a s IH]; [reflexivity|].
  simpl. intros [Ha Hs]%orb_false_iff. specialize (IH Hs).
  destruct (Py.rstrip_by p s) as [|b r].
  - destruct (p a); simpl; [reflexivity|]. now rewrite Ha.
  - simpl in *. now rewrite Ha, IH.
Qed.

Lemma contains_strip (c : ascii) (s : string) :
  Py.contains c s = false -> Py.contains c (Py.strip s) = false.
Proof. intros H. now apply contains_rstrip_by, contains_lstrip_by. Qed.

Lemma contains_app (c : ascii) (s t : string) :
  Py.contains c (s +:+ t) = Py.contains c s || Py.contains c t.
Proof.
  induction s as [|a s IH]; [reflexivity|].
  rewrite app_String. simpl. now rewrite IH, orb_assoc.
Qed.

Lemma cut_left_clean (c : ascii) (s l r : string) :
  Py.cut c s = Some (l, r) -> Py.contains c l = false.
Proof.
  revert l. induction s as [|a s IH]; intros l; [discriminate|].
  simpl. destruct (Ascii.eqb a c) eqn:Ha.
  - now intros [= <- <-].
  - destruct (Py.cut c s) as [[l' r']|]; [|discriminate].
    intros [= <- <-]. simpl. now rewrite Ha, (IH l' eq_refl).
Qed.

Lemma cut_None_clean (c : ascii) (s : string) :
  Py.cut c s = None -> Py.contains c s = false.
Proof.
  induction s as [|a s IH]; [reflexivity|].
  simpl. destruct (Ascii.eqb a c); [discriminate|].
  destruct (Py.cut c s) as [[l r]|]; [discriminate|]. intros _. now apply IH.
Qed.

Lemma cut_head (c : ascii) (a : ascii) (s l r : string) :
  Py.cut c (String a s) = Some (l, r) ->
  l = EmptyString \/ exists l', l = String a l'.
Proof.
  simpl. destruct (Ascii.eqb a c); [intros [= <- <-]; now left|].
  destruct (Py.cut c s) as [[l' r']|]; [|discriminate].
  intros [= <- <-]. right. eauto.
Qed.

(** A stripped string does not start with white space. *)
Lemma lstrip_by_head p (s : string) :
  match Py.lstrip_by p s with
  | EmptyString => True
  | String c _ => p c = false
  end.
Proof.
  induction s as [|a s IH]; [exact I|].
  simpl. destruct (p a) eqn:Ha; [exact IH|exact Ha].
Qed.

Lemma rstrip_by_keeps_head p (c : ascii) (s : string) :
  p c = false ->
  exists r, Py.rstrip_by p (String c s) = String c r.
Proof.
  intros Hc. simpl. destruct (Py.rstrip_by p s); [rewrite Hc|]; eauto.
Qed.

Lemma strip_head (s : string) :
  match Py.strip s with
  | EmptyString => True
  | String c _ => Py.isspace c = false
  end.
Proof.
  unfold Py.strip. pose proof (lstrip_by_head Py.isspace s) as H.
  destruct (Py.lstrip_by Py.isspace s) as [|c t]; [exact I|].
  destruct (rstrip_by_keeps_head Py.isspace c t H) as [r ->]. exact H.
Qed.

(** ** The environment file, further *)

(** A line [KEY=REST], split at its first ['=']. *)
Lemma entry_of_assignment (k rest : string) :
  Py.contains "=" k = false ->
  Py.startswith "#" (Py.lstrip_by Py.isspace k) = false ->
  entry_of_line (k +:+ String "=" rest)
  = Some (Py.strip k, unquote (Py.strip rest)).
Proof.
  intros Hk Hhash. unfold entry_of_line, split_line.
  assert (Hstrip : Py.strip (k +:+ String "=" rest)
          = Py.lstrip_by Py.isspace k
            +:+ String "=" (Py.rstrip_by Py.isspace rest)).
  { unfold Py.strip. rewrite lstrip_by_app_stop by reflexivity.
    now rewrite rstrip_by_app_keep. }
  rewrite Hstrip, is_empty_app_String, contains_app_here.
  rewrite startswith_app by (assumption || reflexivity).
  simpl orb. cbv iota. unfold Py.partition.
  rewrite cut_app_first by now apply contains_lstrip_by.
  now rewrite strip_lstrip, strip_rstrip.
Qed.

Lemma unquote_plain (value : string) :
  Py.startswith dquote value = false ->
  Py.startswith squote value = false ->
  unquote value = value.
Proof. unfold unquote. now intros -> ->. Qed.

Lemma entry_of_ignorable (line : string) :
  ignorable line -> entry_of_line line = None.
Proof.
  unfold entry_of_line, split_line. intros [Hblank|[Hhash|Heq]].
  - unfold Py.strip. now rewrite (lstrip_by_all _ _ Hblank).
  - unfold Py.strip.
    destruct (Py.lstrip_by Py.isspace line) as [|c t] eqn:E; [discriminate|].
    simpl in Hhash. apply Ascii.eqb_eq in Hhash as ->.
    pose proof (rstrip_by_head Py.isspace "#" t eq_refl) as H.
    destruct (Py.rstrip_by Py.isspace (String "#" t)); [discriminate|].
    rewrite H. reflexivity.
  - rewrite (contains_strip _ _ Heq).
    now destruct (Py.is_empty (Py.strip line) || Py.startswith "#" (Py.strip line)).
Qed.

(** The key of an entry is trimmed, has no ['='] and does not start with
    ['#']. *)
Lemma entry_key_shape (line key value : string) :
  entry_of_line line = Some (key, value) ->
  Py.strip key = key
  /\ Py.contains "=" key = false
  /\ Py.startswith "#" key = false.
Proof.
  unfold entry_of_line, split_line.
  pose proof (strip_head line) as Hhead.
  destruct (Py.strip line) as [|c0 t] eqn:E; [discriminate|].
  simpl Py.is_empty. simpl orb.
  destruct (Ascii.eqb c0 "#") eqn:Hhash; [discriminate|].
  destruct (Py.contains "=" (String c0 t)) eqn:Heq; [|discriminate].
  unfold Py.partition.
  destruct (Py.cut "=" (String c0 t)) as [[l r]|] eqn:Hcut.
  - intros [= <- _]. split; [apply strip_idem|]. split.
    + apply contains_strip. exact (cut_left_clean _ _ _ _ Hcut).
    + destruct (cut_head _ _ _ _ _ Hcut) as [->|[l' ->]]; [reflexivity|].
      unfold Py.strip. simpl Py.lstrip_by. rewrite Hhead.
      destruct (rstrip_by_keeps_head Py.isspace c0 l' Hhead) as [r' ->].
      exact Hhash.
  - apply cut_None_clean in Hcut. congruence.
Qed.

Lemma load_env_file_inv (env_path : string) (w w' : world)
      (env : gmap string string) :
  load_env_file env_path w = (Ret env, w') ->
  exists content : string,
    fs w !! env_path = Some (File content)
    /\ env = foldl load_line ∅ (text_lines content)
    /\ w' = w.
Proof.
  destruct (fs w !! env_path) as [[content|]|] eqn:E.
  - rewrite (load_env_file_file _ _ _ E). intros [= <- <-]. eauto.
  - unfold load_env_file, bind, os_path_exists, read_text, ret.
    rewrite E, bool_decide_eq_true_2 by eauto. simpl. now rewrite E.
  - now rewrite (load_env_file_absent _ _ E).
Qed.

(** Every entry of the mapping was put there by a line, the last one that
    assigns its key. *)
Lemma foldl_load_line_origin (lines : list string) (key value : string) :
  foldl load_line ∅ lines !! key = Some value ->
  exists (pre : list string) (line : string) (post : list string),
    lines = pre ++ line :: post
    /\ entry_of_line line = Some (key, value)
    /\ not_reassigned key post.
Proof.
  induction lines as [|l lines IH] using rev_ind.
  - simpl. now rewrite lookup_empty.
  - rewrite foldl_app. simpl. unfold load_line at 1.
    destruct (entry_of_line l) as [[k v]|] eqn:El.
    + destruct (decide (k = key)) as [->|Hne].
      * rewrite lookup_insert_eq. intros [= ->].
        exists lines, l, []. repeat split; [exact El|constructor].
      * rewrite lookup_insert_ne by exact Hne. intros H.
        destruct (IH H) as (pre & line & post & -> & Hline & Hpost).
        exists pre, line, (post ++ [l]). split; [now rewrite <- app_assoc|].
        split; [exact Hline|]. apply Forall_app. split; [exact Hpost|].
        constructor; [|constructor]. rewrite El. simpl. congruence.
    + intros H.
      destruct (IH H) as (pre & line & post & -> & Hline & Hpost).
      exists pre, line, (post ++ [l]). split; [now rewrite <- app_assoc|].
      split; [exact Hline|]. apply Forall_app. split; [exact Hpost|].
      constructor; [|constructor]. now rewrite El.
Qed.

(** X1: a line is split at its first ['='] only.  The text after it,
    trimmed, is the value as it stands when it does not start with a quote:
    it may be empty and it may hold further ['='] characters. *)
Theorem load_env_file_unquoted_value
        (w : world) (env_path content : string) (pre post : list string)
        (k rest : string) :
  fs w !! env_path = Some (File content) ->
  text_lines content = pre ++ (k +:+ String "=" rest) :: post ->
  Py.contains "=" k = false ->
  Py.startswith "#" (Py.lstrip_by Py.isspace k) = false ->
  Py.startswith dquote (Py.strip rest) = false ->
  Py.startswith squote (Py.strip rest) = false ->
  not_reassigned (Py.strip k) post ->
  exists env : gmap string string,
    load_env_file env_path w = (Ret env, w)
    /\ env !! Py.strip k = Some (Py.strip rest).
Proof.
  intros Hfile Hlines Hk Hhash Hdq Hsq Hpost.
  eexists. split; [exact (load_env_file_file _ _ _ Hfile)|].
  rewrite Hlines. apply foldl_load_line_last; [|exact Hpost].
  rewrite entry_of_assignment by assumption.
  now rewrite unquote_plain.
Qed.

(** X2: a blank line, a comment line or a line without ['='] adds nothing:
    the file without that line loads to the same mapping. *)
Theorem load_env_file_skips_line
        (w : world) (path1 path2 content1 content2 : string)
        (pre post : list string) (line : string) :
  fs w !! path1 = Some (File content1) ->
  fs w !! path2 = Some (File content2) ->
  text_lines content1 = pre ++ line :: post ->
  text_lines content2 = pre ++ post ->
  ignorable line ->
  load_env_file path1 w = load_env_file path2 w.
Proof.
  intros H1 H2 Hl1 Hl2 Hline.
  rewrite (load_env_file_file _ _ _ H1), (load_env_file_file _ _ _ H2).
  rewrite Hl1, Hl2, !foldl_app. simpl.
  unfold load_line at 2. now rewrite (entry_of_ignorable _ Hline).
Qed.

(** X3: the mapping holds exactly the last assignment of each key: a key
    maps to a value if and only if some line assigns it that value and no
    later line assigns the key.  A key no line assigns is absent. *)
Theorem load_env_file_entries
        (w : world) (env_path content : string) :
  fs w !! env_path = Some (File content) ->
  exists env : gmap string string,
    load_env_file env_path w = (Ret env, w)
    /\ forall key value : string,
        env !! key = Some value
        <-> exists (pre : list string) (line : string) (post : list string),
            text_lines content = pre ++ line :: post
            /\ entry_of_line line = Some (key, value)
            /\ not_reassigned key post.
Proof.
  intros Hfile.
  eexists. split; [exact (load_env_file_file _ _ _ Hfile)|].
  intros key value. split.
  - apply foldl_load_line_origin.
  - intros (pre & line & post & -> & Hline & Hpost).
    now apply foldl_load_line_last.
Qed.

(** X4: every key of a loaded mapping is trimmed, has no ['='] and does
    not start with ['#']. *)
Theorem load_env_file_keys
        (w w' : world) (env_path : string) (env : gmap string string)
        (key value : string) :
  load_env_file env_path w = (Ret env, w') ->
  env !! key = Some value ->
  Py.strip key = key
  /\ Py.contains "=" key = false
  /\ Py.startswith "#" key = false.
Proof.
  intros Hload Hkey.
  apply load_env_file_inv in Hload as (content & _ & -> & _).
  apply foldl_load_line_origin in Hkey as (pre & line & post & _ & Hline & _).
  exact (entry_key_shape _ _ _ Hline).
Qed.

Lemma load_env_file_unquoted_value_witness :
  (exists env : gmap string string,
      load_env_file "/p/.env" query_world = (Ret env, query_world)
      /\ env !! "DATABASE_URL" = Some "postgres://h/db?sslmode=require")
  /\ (exists env : gmap string string,
         load_env_file "/p/.env" query_world = (Ret env, query_world)
         /\ env !! "EMPTY" = Some EmptyString).
Proof.
  split.
  - apply (load_env_file_unquoted_value query_world "/p/.env" query_env
             [] ["EMPTY=" +:+ nl]
             "DATABASE_URL " (" postgres://h/db?sslmode=require" +:+ nl)).
    + vm_compute. reflexivity.
    + vm_compute. reflexivity.
    + reflexivity.
    + reflexivity.
    + reflexivity.
    + reflexivity.
    + repeat constructor; intros H; vm_compute in H; discriminate H.
  - apply (load_env_file_unquoted_value query_world "/p/.env" query_env
             ["DATABASE_URL = postgres://h/db?sslmode=require" +:+ nl] []
             "EMPTY" nl).
    + vm_compute. reflexivity.
    + vm_compute. reflexivity.
    + reflexivity.
    + reflexivity.
    + reflexivity.
    + reflexivity.
    + constructor.
Defined.

Lemma load_env_file_skips_line_witness :
  load_env_file "/p/.env" sample_world2 = load_env_file "/q/.env" sample_world2.
Proof.
  apply (load_env_file_skips_line sample_world2 "/p/.env" "/q/.env"
           sample_env
           ("DUP=first" +:+ String "010"
            ("KEY=" +:+ quoted dquote "value with spaces" +:+ String "010"
            ("DUP = " +:+ quoted squote "second" +:+ String "010"
            ("Q=" +:+ String dquote EmptyString))))
           []
           ["DUP=first" +:+ nl;
            "KEY=" +:+ quoted dquote "value with spaces" +:+ nl;
            "DUP = " +:+ quoted squote "second" +:+ nl;
            "Q=" +:+ String dquote EmptyString]
           ("# settings" +:+ nl)).
  - vm_compute. reflexivity.
  - vm_compute. reflexivity.
  - vm_compute. reflexivity.
  - vm_compute. reflexivity.
  - right. left. reflexivity.
Defined.

Lemma load_env_file_entries_witness :
  exists env : gmap string string,
    load_env_file "/p/.env" sample_world = (Ret env, sample_world)
    /\ forall key value : string,
        env !! key = Some value
        <-> exists (pre : list string) (line : string) (post : list string),
            text_lines sample_env = pre ++ line :: post
            /\ entry_of_line line = Some (key, value)
            /\ not_reassigned key post.
Proof.
  apply (load_env_file_entries sample_world "/p/.env" sample_env).
  vm_compute. reflexivity.
Defined.

Lemma load_env_file_keys_witness :
  Py.strip "KEY" = "KEY"
  /\ Py.contains "=" "KEY" = false
  /\ Py.startswith "#" "KEY" = false.
Proof.
  apply (load_env_file_keys sample_world sample_world "/p/.env"
           (foldl load_line ∅ (text_lines sample_env))
           "KEY" "value with spaces").
  - vm_compute. reflexivity.
  - vm_compute. reflexivity.
Defined.

(** ** The URL parser, further *)

Lemma lower_char_idem (c : ascii) :
  Py.lower_char (Py.lower_char c) = Py.lower_char c.
Proof. destruct c as [[] [] [] [] [] [] [] []]; reflexivity. Qed.

Lemma lower_idem (s : string) : Py.lower (Py.lower s) = Py.lower s.
Proof.
  induction s as [|a s IH]; [reflexivity|].
  simpl. now rewrite lower_char_idem, IH.
Qed.




(** A host name without a zone is in lower case. *)
Lemma hostname_lower (parsed : ParseResult) (h : string) :
  hostname parsed = Some h ->
  Py.contains "%" h = false ->
  Py.lower h = h.
Proof.
  unfold hostname. destruct (Py.is_empty (fst (hostinfo parsed))); [discriminate|].
  unfold Py.partition.
  destruct (Py.cut "%" (fst (hostinfo parsed))) as [[l r]|].
  - intros [= <-]. simpl. rewrite contains_app, contains_app. simpl.
    rewrite orb_true_r. discriminate.
  - intros [= <-] _. rewrite !app_Empty_r. apply lower_idem.
Qed.

Section ParseFurther.

Variable bracketed_host_ok : string -> bool.
Variable nfkc_ok : string -> bool.


(** X6: the host of a returned record is in lower case, unless it carries
    an IPv6 zone (a ['%']). *)
Theorem parse_database_url_host_lower (url : string) (cfg : db_config) :
  parse_database_url bracketed_host_ok nfkc_ok url = Val cfg ->
  Py.contains "%" (cfg_host cfg) = false ->
  Py.lower (cfg_host cfg) = cfg_host cfg.
Proof.
  rewrite parse_database_url_unfold. unfold pyres_bind.
  destruct (urlparse bracketed_host_ok nfkc_ok url) as [parsed|]; [|discriminate].
  destruct (port parsed) as [p|]; [|discriminate].
  intros [= <-]. simpl. unfold or_str.
  destruct (hostname parsed) as [h|] eqn:Hh; [|reflexivity].
  destruct (Py.is_empty h); [reflexivity|].
  exact (hostname_lower parsed h Hh).
Qed.

End ParseFurther.


Lemma parse_database_url_host_lower_witness :
  parse_database_url (fun _ => true) (fun _ => true) "postgres://u@MyHost.Example/db"
  = Val (mkConfig "myhost.example" 5432 "db" (Some "u") None)
  /\ Py.lower "myhost.example" = "myhost.example".
Proof.
  split; [reflexivity|].
  apply (parse_database_url_host_lower (fun _ => true) (fun _ => true)
           "postgres://u@MyHost.Example/db"
           (mkConfig "myhost.example" 5432 "db" (Some "u") None));
    reflexivity.
Defined.

Lemma forallb_app (P : ascii -> bool) (s t : string) :
  Py.forallb P (s +:+ t) = Py.forallb P s && Py.forallb P t.
Proof.
  induction s as [|a s IH]; [reflexivity|].
  rewrite app_String. simpl. now rewrite IH, andb_assoc.
Qed.

Lemma forallb_rcut (P : ascii -> bool) (c : ascii) (s l r : string) :
  Py.rcut c s = Some (l, r) ->
  Py.forallb P s = true ->
  Py.forallb P l = true /\ Py.forallb P r = true.
Proof.
  revert l. induction s as [|a s IH]; intros l; [discriminate|].
  simpl. intros Hcut [Ha Hs]%andb_true_iff.
  destruct (Py.rcut c s) as [[l' r']|].
  - injection Hcut as <- <-. destruct (IH l' eq_refl Hs) as [Hl Hr].
    simpl. now rewrite Ha, Hl.
  - destruct (Ascii.eqb a c); [|discriminate].
    injection Hcut as <- <-. auto.
Qed.

Lemma forallb_drop_last (P : ascii -> bool) (s : string) :
  Py.forallb P s = true -> Py.forallb P (Py.drop_last s) = true.
Proof.
  induction s as [|a s IH]; [reflexivity|].
  intros H. destruct s as [|b s]; [reflexivity|].
  change (Py.forallb P (String a (String b s)) = true)
    with (P a && Py.forallb P (String b s) = true) in H.
  apply andb_true_iff in H as [Ha Hs].
  change (P a && Py.forallb P (Py.drop_last (String b s)) = true).
  now rewrite Ha, (IH Hs).
Qed.

(** [c] does not occur in [s], as a [forallb]. *)
Lemma contains_forallb (x : ascii) (s : string) :
  Py.contains x s = false
  <-> Py.forallb (fun c => negb (Ascii.eqb c x)) s = true.
Proof.
  induction s as [|a s IH]; [easy|].
  simpl. rewrite orb_false_iff, andb_true_iff, IH, negb_true_iff. reflexivity.
Qed.

Lemma forallb_splitparams (P : ascii -> bool) (url : string) :
  P "/"%char = true ->
  Py.forallb P url = true ->
  Py.forallb P (fst (splitparams url)) = true.
Proof.
  intros Hslash Hurl. unfold splitparams.
  destruct (Py.contains "/" url).
  - destruct (Py.rcut "/" url) as [[dir last]|] eqn:Hr; [|exact Hurl].
    destruct (forallb_rcut P _ _ _ _ Hr Hurl) as [Hdir Hlast].
    destruct (Py.cut ";" last) as [[l r]|] eqn:Hc; [|exact Hurl].
    destruct (forallb_cut P _ _ _ _ Hc Hlast) as [Hl _].
    simpl. rewrite forallb_app. simpl. now rewrite Hdir, Hslash, Hl.
  - destruct (Py.cut ";" url) as [[l r]|] eqn:Hc.
    + now destruct (forallb_cut P _ _ _ _ Hc Hurl).
    + now apply forallb_drop_last.
Qed.

Lemma lstrip_by_not_head (c : ascii) (s : string) :
  Py.startswith c (Py.lstrip_by (Ascii.eqb c) s) = false.
Proof.
  pose proof (lstrip_by_head (Ascii.eqb c) s) as H.
  destruct (Py.lstrip_by (Ascii.eqb c) s) as [|a t]; [reflexivity|].
  simpl. now rewrite Ascii.eqb_sym.
Qed.

Lemma split_head_clean (c : ascii) (s : string) :
  Py.contains c (Py.split_head c s) = false.
Proof.
  unfold Py.split_head. destruct (Py.cut c s) as [[l r]|] eqn:E.
  - exact (cut_left_clean _ _ _ _ E).
  - exact (cut_None_clean _ _ E).
Qed.

Lemma forallb_split_head (P : ascii -> bool) (c : ascii) (s : string) :
  Py.forallb P s = true -> Py.forallb P (Py.split_head c s) = true.
Proof.
  intros H. unfold Py.split_head. destruct (Py.cut c s) as [[l r]|] eqn:E;
    [|exact H].
  now destruct (forallb_cut P _ _ _ _ E H).
Qed.

Lemma startswith_split_head (c d : ascii) (s : string) :
  Py.startswith c s = false -> Py.startswith c (Py.split_head d s) = false.
Proof.
  unfold Py.split_head. destruct s as [|a s]; [reflexivity|].
  intros H. destruct (Py.cut d (String a s)) as [[l r]|] eqn:E; [|exact H].
  destruct (cut_head _ _ _ _ _ E) as [->|[l' ->]]; [reflexivity|exact H].
Qed.

Section ParsePath.

Variable bracketed_host_ok : string -> bool.
Variable nfkc_ok : string -> bool.

(** The path that [urlsplit] returns has no ['#']. *)
Lemma urlsplit_path_clean (url scheme netloc path query fragment : string) :
  urlsplit bracketed_host_ok nfkc_ok url
  = Val (scheme, netloc, path, query, fragment) ->
  Py.contains "#" path = false.
Proof.
  unfold urlsplit, pyres_bind.
  destruct (match Py.cut ":" _ with Some _ => _ | None => _ end)
    as [scheme0 url3].
  destruct (match Py.after_slashes url3 with Some _ => _ | None => _ end)
    as [[netloc0 u]|]; [|discriminate].
  assert (Hfrag : Py.contains "#"
                    (fst match Py.cut "#" u with
                         | Some (l, r) => (l, r)
                         | None => (u, EmptyString)
                         end) = false).
  { destruct (Py.cut "#" u) as [[l r]|] eqn:E; simpl.
    - exact (cut_left_clean _ _ _ _ E).
    - exact (cut_None_clean _ _ E). }
  destruct (match Py.cut "#" u with Some _ => _ | None => _ end) as [u4 frag].
  simpl in Hfrag.
  assert (Hq : Py.contains "#"
                 (fst match Py.cut "?" u4 with
                      | Some (l, r) => (l, r)
                      | None => (u4, EmptyString)
                      end) = false).
  { apply contains_forallb in Hfrag. apply contains_forallb.
    destruct (Py.cut "?" u4) as [[l r]|] eqn:E; simpl; [|exact Hfrag].
    now destruct (forallb_cut _ _ _ _ _ E Hfrag). }
  destruct (match Py.cut "?" u4 with Some _ => _ | None => _ end) as [u5 q].
  simpl in Hq.
  destruct (checknetloc nfkc_ok netloc0); [|discriminate].
  now intros [= _ _ <- _ _].
Qed.

Lemma urlparse_path_clean (url : string) (parsed : ParseResult) :
  urlparse bracketed_host_ok nfkc_ok url = Val parsed ->
  Py.contains "#" (path parsed) = false.
Proof.
  unfold urlparse, pyres_bind.
  destruct (urlsplit bracketed_host_ok nfkc_ok url)
    as [[[[[scheme netloc] p] query] fragment]|] eqn:Hsplit; [|discriminate].
  apply urlsplit_path_clean in Hsplit.
  destruct (existsb (String.eqb scheme) uses_params && Py.contains ";" p).
  - pose proof (forallb_splitparams (fun c => negb (Ascii.eqb c "#")) p eq_refl
                  (proj1 (contains_forallb _ _) Hsplit)) as H.
    destruct (splitparams p) as [p' params]. intros [= <-]. simpl in *.
    now apply contains_forallb.
  - now intros [= <-].
Qed.

(** X7: the database name of a returned record does not start with ['/']
    and holds neither ['?'] nor ['#']. *)
Theorem parse_database_url_database_shape (url : string) (cfg : db_config) :
  parse_database_url bracketed_host_ok nfkc_ok url = Val cfg ->
  Py.startswith "/" (cfg_database cfg) = false
  /\ Py.contains "?" (cfg_database cfg) = false
  /\ Py.contains "#" (cfg_database cfg) = false.
Proof.
  rewrite parse_database_url_unfold. unfold pyres_bind.
  destruct (urlparse bracketed_host_ok nfkc_ok url) as [parsed|] eqn:Hp;
    [|discriminate].
  destruct (port parsed) as [p|]; [|discriminate].
  intros [= <-]. simpl. split; [|split].
  - apply startswith_split_head, lstrip_by_not_head.
  - apply split_head_clean.
  - apply contains_forallb, forallb_split_head, forallb_lstrip_by,
      contains_forallb.
    exact (urlparse_path_clean _ _ Hp).
Qed.

(** X8: the parser raises nothing but [ValueError], and only when
    [urlparse] rejects the URL or the URL has a port text that is not a
    port number: a character that is no ASCII digit, more than 4300
    digits, or a value above 65535. *)
Theorem parse_database_url_only_ValueError (url : string) (e : exn) :
  parse_database_url bracketed_host_ok nfkc_ok url = Exc e ->
  e = ValueError
  /\ (urlparse bracketed_host_ok nfkc_ok url = Exc ValueError
      \/ exists (parsed : ParseResult) (text : string),
          urlparse bracketed_host_ok nfkc_ok url = Val parsed
          /\ snd (hostinfo parsed) = Some text
          /\ (Py.forallb Py.is_ascii_digit text = false
              \/ (int_max_str_digits < Z.of_nat (String.length text))%Z
              \/ (65535 < Py.int_of_digits text)%Z)).
Proof.
  intros H. pose proof (parse_database_url_raises_ValueError _ _ _ _ H) as ->.
  split; [reflexivity|].
  rewrite parse_database_url_unfold in H. unfold pyres_bind in H.
  destruct (urlparse bracketed_host_ok nfkc_ok url) as [parsed|e'];
    [|left; congruence].
  right. exists parsed.
  destruct (snd (hostinfo parsed)) as [text|] eqn:Htext;
    [|now rewrite (port_absent _ Htext) in H].
  exists text. split; [reflexivity|]. split; [reflexivity|].
  rewrite (port_of_text _ _ Htext) in H. unfold is_port_number in H.
  destruct (Py.forallb Py.is_ascii_digit text); [|now left].
  right.
  destruct (Z.of_nat (String.length text) <=? int_max_str_digits)%Z eqn:Hlen;
    [|left; now apply Z.leb_gt in Hlen].
  right.
  destruct (Py.int_of_digits text <=? 65535)%Z eqn:Hval; [discriminate H|].
  now apply Z.leb_gt in Hval.
Qed.

End ParsePath.

Lemma parse_database_url_database_shape_witness :
  parse_database_url (fun _ => true) (fun _ => true)
    "postgres://u:p@h//mydb?sslmode=require#frag"
  = Val (mkConfig "h" 5432 "mydb" (Some "u") (Some "p"))
  /\ Py.startswith "/" "mydb" = false
  /\ Py.contains "?" "mydb" = false
  /\ Py.contains "#" "mydb" = false.
Proof.
  split; [reflexivity|].
  apply (parse_database_url_database_shape (fun _ => true) (fun _ => true)
           "postgres://u:p@h//mydb?sslmode=require#frag"
           (mkConfig "h" 5432 "mydb" (Some "u") (Some "p"))).
  reflexivity.
Defined.

Lemma parse_database_url_only_ValueError_witness :
  ValueError = ValueError
  /\ (urlparse (fun _ => true) (fun _ => true) long_port_url = Exc ValueError
      \/ exists (parsed : ParseResult) (text : string),
          urlparse (fun _ => true) (fun _ => true) long_port_url = Val parsed
          /\ snd (hostinfo parsed) = Some text
          /\ (Py.forallb Py.is_ascii_digit text = false
              \/ (int_max_str_digits < Z.of_nat (String.length text))%Z
              \/ (65535 < Py.int_of_digits text)%Z)).
Proof.
  apply (parse_database_url_only_ValueError (fun _ => true) (fun _ => true)
           long_port_url ValueError).
  vm_compute. reflexivity.
Defined.

Lemma prefix_postgres (rest : string) :
  "postgres://" +:+ rest
  = String "p" (String "o" (String "s" (String "t" (String "g" (String "r"
      (String "e" (String "s" (String ":" (String "/" (String "/" rest)))))))))).
Proof. reflexivity. Qed.

Lemma prefix_postgresql (rest : string) :
  "postgresql://" +:+ rest
  = String "p" (String "o" (String "s" (String "t" (String "g" (String "r"
      (String "e" (String "s" (String "q" (String "l" (String ":"
        (String "/" (String "/" rest)))))))))))).
Proof. reflexivity. Qed.

Section SchemeAlias.

Variable bracketed_host_ok : string -> bool.
Variable nfkc_ok : string -> bool.

Lemma urlsplit_scheme_alias (rest : string) :
  match urlsplit bracketed_host_ok nfkc_ok ("postgres://" +:+ rest),
        urlsplit bracketed_host_ok nfkc_ok ("postgresql://" +:+ rest) with
  | Val (s1, n1, p1, q1, f1), Val (s2, n2, p2, q2, f2) =>
      s1 = "postgres" /\ s2 = "postgresql"
      /\ n1 = n2 /\ p1 = p2 /\ q1 = q2 /\ f1 = f2
  | Exc e1, Exc e2 => e1 = e2
  | _, _ => False
  end.
Proof.
  rewrite prefix_postgres, prefix_postgresql.
  unfold urlsplit, pyres_bind. simpl.
  destruct (let '(netloc0, url') := splitnetloc _ in _) as [[n u]|e];
    [|reflexivity].
  destruct (match Py.cut "#" u with Some _ => _ | None => _ end) as [u0 f0].
  destruct (match Py.cut "?" u0 with Some _ => _ | None => _ end) as [u1 q0].
  destruct (checknetloc nfkc_ok n); [|reflexivity].
  repeat split; reflexivity.
Qed.

(** X9: the scheme is not checked, and [postgres://] and [postgresql://]
    in front of the same text give the same result: the same record, or
    the same exception. *)
Theorem parse_database_url_scheme_alias (rest : string) :
  parse_database_url bracketed_host_ok nfkc_ok ("postgres://" +:+ rest)
  = parse_database_url bracketed_host_ok nfkc_ok ("postgresql://" +:+ rest).
Proof.
  pose proof (urlsplit_scheme_alias rest) as H.
  rewrite !parse_database_url_unfold. unfold urlparse, pyres_bind.
  destruct (urlsplit bracketed_host_ok nfkc_ok ("postgres://" +:+ rest))
    as [[[[[s1 n1] p1] q1] f1]|e1];
    destruct (urlsplit bracketed_host_ok nfkc_ok ("postgresql://" +:+ rest))
      as [[[[[s2 n2] p2] q2] f2]|e2];
    try contradiction.
  - destruct H as (-> & -> & -> & -> & -> & ->). reflexivity.
  - now subst.
Qed.

End SchemeAlias.

(** ** The dump and the script, further *)





Lemma argv_of_without_user (cfg : db_config) :
  cfg_user cfg = None -> argv_of (docker_cmd cfg) = None.
Proof. unfold docker_cmd. now intros ->. Qed.

Lemma argv_of_with_user (cfg : db_config) (u : string) :
  cfg_user cfg = Some u ->
  exists argv : list string, argv_of (docker_cmd cfg) = Some argv.
Proof. unfold docker_cmd. intros ->. simpl. eauto. Qed.

Lemma count_events_app (p : event -> bool) (t1 t2 : list event) :
  count_events p (t1 ++ t2) = count_events p t1 + count_events p t2.
Proof. induction t1 as [|e t1 IH]; simpl; [reflexivity|]. rewrite IH. lia. Qed.

Lemma count_events_prints (p : event -> bool) (msgs : list message) :
  (forall m, p (EPrint m) = false) ->
  count_events p (map EPrint msgs) = 0.
Proof.
  intros Hp. induction msgs as [|m msgs IH]; simpl; [reflexivity|].
  now rewrite Hp, IH.
Qed.

Lemma env_ne_docs (root : string) :
  path_join root ".env" ≠ path_join root "docs".
Proof. unfold path_join. intros H. apply String.app_inj in H. discriminate H. Qed.

Lemma env_ne_output (root : string) :
  path_join root ".env" ≠ output_path root.
Proof.
  unfold output_path, path_join. rewrite str_app_assoc.
  intros H. apply String.app_inj in H. discriminate H.
Qed.

Section ScriptFurther.

Variable bracketed_host_ok : string -> bool.
Variable nfkc_ok : string -> bool.
Variable run_process : list string -> proc_result.

(** The script, path by path. *)
Lemma run_script_unfold (root : string) (files : gmap string node) :
  run_script bracketed_host_ok nfkc_ok run_process root files
  = match files !! path_join root ".env" with
    | None =>
        (1%Z, mkWorld files
                (greeting root ++ [EPrint (MEnvNotFound (path_join root ".env"))]))
    | Some Dir => (1%Z, mkWorld files (greeting root))
    | Some (File content) =>
        if Py.is_empty (database_url_of content)
        then (1%Z, mkWorld files (greeting root ++ [EPrint MNoDatabaseUrl]))
        else
          match parse_database_url bracketed_host_ok nfkc_ok
                  (database_url_of content) with
          | Exc _ => (1%Z, mkWorld files (greeting root))
          | Val cfg =>
              match mkdir_exist_ok (path_join root "docs")
                      (mkWorld files (greeting root)) with
              | (Ret _, w2) =>
                  match dump_schema_docker run_process cfg (output_path root) w2 with
                  | (Ret true, w3) => (0%Z, w3)
                  | (Exit status, w3) => (status, w3)
                  | (_, w3) => (1%Z, w3)
                  end
              | (Exit status, w2) => (status, w2)
              | (Raise _, w2) => (1%Z, w2)
              end
          end
    end.
Proof.
  unfold run_script, main, bind, print, emit, database_url_of, output_path.
  simpl.
  destruct (files !! path_join root ".env") as [[content|]|] eqn:Henv.
  - rewrite (load_env_file_file (path_join root ".env") content) by exact Henv.
    destruct (Py.is_empty _); [reflexivity|]. simpl.
    destruct (parse_database_url _ _ _) as [cfg|e]; [|reflexivity]. simpl.
    destruct (mkdir_exist_ok _ _) as [[[]| |] w2]; try reflexivity.
    destruct (dump_schema_docker _ _ _ _) as [[[]| |] w3]; reflexivity.
  - unfold load_env_file, bind, os_path_exists, read_text, ret. simpl.
    rewrite Henv, bool_decide_eq_true_2 by eauto. simpl. now rewrite Henv.
  - now rewrite (load_env_file_absent (path_join root ".env")) by exact Henv.
Qed.

Lemma dump_schema_docker_without_user (cfg : db_config) (out : string)
      (w : world) :
  cfg_user cfg = None ->
  dump_schema_docker run_process cfg out w
  = (Raise TypeError, mkWorld (fs w) (trace w ++ banner cfg out)).
Proof.
  intros Hu. rewrite dump_schema_docker_unfold.
  now rewrite (argv_of_without_user _ Hu).
Qed.




Lemma dump_schema_docker_other_paths
      (cfg : db_config) (out : string) (w w' : world) (o : outcome bool)
      (p : string) :
  dump_schema_docker run_process cfg out w = (o, w') ->
  p ≠ out ->
  fs w' !! p = fs w !! p.
Proof.
  intros H Hp.
  apply dump_schema_docker_summary in H
    as [(_ & _ & -> & _)
       |(argv & _ & [(stdout & stderr & _ & _ & -> & _)|(_ & -> & _)])];
    try reflexivity.
  now apply lookup_insert_ne.
Qed.

(** X12: [dump_schema_docker] never ends with [sys.exit]; it changes no
    file but the output file; and it changes no file at all when no child
    can be started from its arguments or the child does not exit with
    status 0. *)
Theorem dump_schema_docker_frame
        (cfg : db_config) (out : string) (w w' : world) (o : outcome bool) :
  dump_schema_docker run_process cfg out w = (o, w') ->
  (forall status : Z, o ≠ Exit status)
  /\ (forall p : string, p ≠ out -> fs w' !! p = fs w !! p)
  /\ ((forall (argv : list string) (stdout stderr : string),
          argv_of (docker_cmd cfg) = Some argv ->
          run_process argv ≠ ProcExited 0 stdout stderr) ->
      fs w' = fs w).
Proof.
  intros H.
  apply dump_schema_docker_summary in H
    as [(_ & -> & Hfs & _)
       |(argv & Hargv
         & [(stdout & stderr & Hproc & -> & Hfs & _)
           |(Ho & Hfs & _)])].
  - rewrite Hfs. repeat split; congruence.
  - rewrite Hfs. split; [congruence|]. split.
    + intros p Hp. now apply lookup_insert_ne.
    + intros Hfail. now apply (Hfail _ _ _ Hargv) in Hproc.
  - rewrite Hfs. split; [|split; congruence].
    destruct Ho as [-> | [e ->]]; congruence.
Qed.

(** X14: the process ends with status 0 or with status 1. *)
Theorem script_exit_status
        (root : string) (files : gmap string node) (st : Z) (w' : world) :
  run_script bracketed_host_ok nfkc_ok run_process root files = (st, w') ->
  st = 0%Z \/ st = 1%Z.
Proof.
  intros H.
  apply script_summary in H
    as [(-> & _)|(content & cfg & w2 & o & _ & _ & Hdump & ->)]; [now right|].
  apply dump_schema_docker_summary in Hdump
    as [(_ & -> & _)
       |(argv & _ & [(out & err & _ & -> & _)|([->|[e ->]] & _)])]; auto.
Qed.

(** X15: when the environment file has no [DATABASE_URL], or an empty one,
    the script prints the error and exits with status 1; it makes no
    directory, starts no child and leaves every file as it was. *)
Theorem script_without_database_url
        (root : string) (files : gmap string node) (content : string) :
  files !! path_join root ".env" = Some (File content) ->
  database_url_of content = EmptyString ->
  run_script bracketed_host_ok nfkc_ok run_process root files
  = (1%Z, mkWorld files (greeting root ++ [EPrint MNoDatabaseUrl])).
Proof.
  intros Henv Hurl. now rewrite run_script_unfold, Henv, Hurl.
Qed.

(** X16: when [parse_database_url] raises on the URL, the exception ends
    the process with status 1 before the docs directory is made: no file
    is touched and no child is started. *)
Theorem script_invalid_url
        (root : string) (files : gmap string node) (content : string)
        (e : exn) :
  files !! path_join root ".env" = Some (File content) ->
  parse_database_url bracketed_host_ok nfkc_ok (database_url_of content)
  = Exc e ->
  run_script bracketed_host_ok nfkc_ok run_process root files
  = (1%Z, mkWorld files (greeting root)).
Proof.
  intros Henv Hparse. rewrite run_script_unfold, Henv, Hparse.
  destruct (Py.is_empty (database_url_of content)) eqn:Hempty; [|reflexivity].
  destruct (database_url_of content); [|discriminate Hempty].
  discriminate Hparse.
Qed.

(** X17: when [docs] exists and is a regular file, the run ends with status
    1 without starting a child, and no file is touched. *)
Theorem script_docs_is_file
        (root : string) (files : gmap string node) (text : string)
        (st : Z) (w' : world) :
  files !! path_join root "docs" = Some (File text) ->
  run_script bracketed_host_ok nfkc_ok run_process root files = (st, w') ->
  st = 1%Z
  /\ fs w' = files
  /\ forall argv : list string, ~ In (ESpawn argv) (trace w').
Proof.
  intros Hdocs H.
  apply script_summary in H
    as [(-> & Hfs & msgs & Htr)
       |(content & cfg & w2 & o & _ & [(Hd & _)|(Hd & _)] & _)];
    try congruence.
  split; [reflexivity|]. split; [exact Hfs|].
  intros argv Hin. rewrite Htr in Hin. now apply not_in_prints_spawn in Hin.
Qed.

(** X18: a run changes no path but the docs directory and the output file;
    the environment file in particular is as it was. *)
Theorem script_frame
        (root : string) (files : gmap string node) (st : Z) (w' : world) :
  run_script bracketed_host_ok nfkc_ok run_process root files = (st, w') ->
  (forall p : string,
      p ≠ path_join root "docs" -> p ≠ output_path root ->
      fs w' !! p = files !! p)
  /\ fs w' !! path_join root ".env" = files !! path_join root ".env".
Proof.
  intros H.
  assert (Hframe : forall p : string,
             p ≠ path_join root "docs" -> p ≠ output_path root ->
             fs w' !! p = files !! p).
  { intros p Hp1 Hp2.
    apply script_summary in H
      as [(_ & -> & _)|(content & cfg & w2 & o & _ & Hmk & Hdump & _)];
      [reflexivity|].
    rewrite (dump_schema_docker_other_paths _ _ _ _ _ _ Hdump Hp2).
    destruct Hmk as [(_ & ->)|(_ & ->)]; simpl; [reflexivity|].
    now apply lookup_insert_ne. }
  split; [exact Hframe|].
  apply Hframe; [apply env_ne_docs|apply env_ne_output].
Qed.

(** X19: a run starts at most one child (there is no retry) and writes at
    most once; a run that ends with status 0 has written exactly once; and
    a run writes only after a child that exited with status 0. *)
Theorem script_single_attempt
        (root : string) (files : gmap string node) (st : Z) (w' : world) :
  run_script bracketed_host_ok nfkc_ok run_process root files = (st, w') ->
  count_events is_spawn (trace w') <= 1
  /\ count_events is_write (trace w') <= 1
  /\ (st = 0%Z -> count_events is_write (trace w') = 1)
  /\ (count_events is_write (trace w') = 1 ->
      exists (argv : list string) (stdout stderr : string),
        In (ESpawn argv) (trace w')
        /\ run_process argv = ProcExited 0 stdout stderr).
Proof.
  intros H.
  apply script_summary in H
    as [(-> & _ & msgs & Htr)
       |(content & cfg & w2 & o & _ & Hmk & Hdump & ->)].
  { rewrite Htr, !count_events_prints by reflexivity.
    repeat split; (lia || discriminate). }
  assert (Hpre : count_events is_spawn (trace w2) = 0
                 /\ count_events is_write (trace w2) = 0).
  { destruct Hmk as [(_ & ->)|(_ & ->)]; now simpl. }
  destruct Hpre as [Hs Hw].
  apply dump_schema_docker_summary in Hdump
    as [(_ & -> & _ & Htr)
       |(argv & _
         & [(out & err & Hproc & -> & _ & Htr)
           |(Ho & _ & msgs & Htr)])];
    rewrite Htr, !count_events_app, Hs, Hw; simpl.
  - repeat split; (lia || discriminate).
  - repeat split; try lia. intros _. exists argv, out, err.
    split; [|exact Hproc]. apply in_or_app. right. simpl. auto 10.
  - rewrite !count_events_prints by reflexivity.
    destruct Ho as [-> | [e ->]]; repeat split; (lia || discriminate).
Qed.

(** X21: when the URL has no user, [--username] is followed by [None] and
    [subprocess.run] raises [TypeError]: the run ends with status 1, having
    started no child and written nothing. *)
Theorem script_without_user
        (root : string) (files : gmap string node) (content : string)
        (cfg : db_config) (st : Z) (w' : world) :
  files !! path_join root ".env" = Some (File content) ->
  parse_database_url bracketed_host_ok nfkc_ok (database_url_of content)
  = Val cfg ->
  cfg_user cfg = None ->
  run_script bracketed_host_ok nfkc_ok run_process root files = (st, w') ->
  st = 1%Z
  /\ count_events is_spawn (trace w') = 0
  /\ count_events is_write (trace w') = 0.
Proof.
  intros Henv Hparse Huser. rewrite run_script_unfold, Henv, Hparse.
  destruct (Py.is_empty (database_url_of content)); [now intros [= <- <-]|].
  destruct (mkdir_exist_ok _ _) as [om w2] eqn:Hmk.
  apply mkdir_exist_ok_inv in Hmk
    as [(-> & _ & ->)|[(-> & _ & ->)|(e & -> & ->)]];
    rewrite ?(dump_schema_docker_without_user _ _ _ Huser);
    now intros [= <- <-].
Qed.

(** X22: exit status 0 means that all went well: the environment file was
    read, its URL parsed to a record with a user, the child was started and
    exited with status 0, and the output file holds the text of
    [result.stdout]: the child's standard output with every CR LF and
    every CR read as LF. *)
Theorem script_exit_zero
        (root : string) (files : gmap string node) (w' : world) :
  run_script bracketed_host_ok nfkc_ok run_process root files = (0%Z, w') ->
  exists (content : string) (cfg : db_config) (argv : list string)
         (stdout stderr : string),
    files !! path_join root ".env" = Some (File content)
    /\ parse_database_url bracketed_host_ok nfkc_ok (database_url_of content)
       = Val cfg
    /\ argv_of (docker_cmd cfg) = Some argv
    /\ run_process argv = ProcExited 0 stdout stderr
    /\ In (ESpawn argv) (trace w')
    /\ fs w' !! output_path root = Some (File (universal_newlines stdout)).
Proof.
  rewrite run_script_unfold.
  destruct (files !! path_join root ".env") as [[content|]|] eqn:Henv;
    try discriminate.
  destruct (Py.is_empty (database_url_of content)); [discriminate|].
  destruct (parse_database_url _ _ _) as [cfg|] eqn:Hparse; [|discriminate].
  destruct (mkdir_exist_ok _ _) as [om w2] eqn:Hmk.
  apply mkdir_exist_ok_inv in Hmk
    as [(-> & _ & ->)|[(-> & _ & ->)|(e & -> & ->)]]; [| |discriminate];
    (destruct (dump_schema_docker run_process cfg (output_path root) _)
       as [o w3] eqn:Hdump;
     intros H;
     apply dump_schema_docker_summary in Hdump
       as [(_ & -> & _)
          |(argv & Hargv
            & [(stdout & stderr & Hproc & -> & Hfs & Htr)
              |([->|[e ->]] & _)])];
     try discriminate H;
     injection H as Hw; subst w3;
     exists content, cfg, argv, stdout, stderr;
     repeat split; try assumption;
     [rewrite Htr, !in_app_iff; right; right; simpl; auto
     |rewrite Hfs; apply lookup_insert_eq]).
Qed.

End ScriptFurther.

(** ** The further properties on the sample project *)



Lemma dump_schema_docker_frame_witness :
  (forall status : Z,
      fst (dump_schema_docker failing_docker project_cfg "/p/docs/prism.sql"
             before_dump) ≠ Exit status)
  /\ (forall p : string,
         p ≠ "/p/docs/prism.sql" ->
         fs (snd (dump_schema_docker failing_docker project_cfg
                    "/p/docs/prism.sql" before_dump)) !! p
         = fs before_dump !! p)
  /\ fs (snd (dump_schema_docker failing_docker project_cfg
                "/p/docs/prism.sql" before_dump))
     = fs before_dump.
Proof.
  destruct (dump_schema_docker_frame failing_docker project_cfg
              "/p/docs/prism.sql" before_dump
              (snd (dump_schema_docker failing_docker project_cfg
                      "/p/docs/prism.sql" before_dump))
              (fst (dump_schema_docker failing_docker project_cfg
                      "/p/docs/prism.sql" before_dump)))
    as (Hexit & Hother & Hnone).
  - vm_compute. reflexivity.
  - split; [exact Hexit|]. split; [exact Hother|].
    apply Hnone. intros argv stdout stderr _. discriminate.
Defined.

Lemma script_exit_status_witness :
  fst failing_run = 0%Z \/ fst failing_run = 1%Z.
Proof.
  apply (script_exit_status (fun _ => true) (fun _ => true) failing_docker
           "/p" project_files (fst failing_run) (snd failing_run)).
  vm_compute. reflexivity.
Defined.

Lemma script_without_database_url_witness :
  run_script (fun _ => true) (fun _ => true) working_docker "/p"
    (fs sample_world)
  = (1%Z, mkWorld (fs sample_world) (greeting "/p" ++ [EPrint MNoDatabaseUrl])).
Proof.
  apply (script_without_database_url (fun _ => true) (fun _ => true)
           working_docker "/p" (fs sample_world) sample_env).
  - vm_compute. reflexivity.
  - vm_compute. reflexivity.
Defined.

Lemma script_invalid_url_witness :
  run_script (fun _ => true) (fun _ => true) working_docker "/p" bad_port_files
  = (1%Z, mkWorld bad_port_files (greeting "/p")).
Proof.
  apply (script_invalid_url (fun _ => true) (fun _ => true) working_docker
           "/p" bad_port_files "DATABASE_URL=postgres://u:p@h:5x/db"
           ValueError).
  - vm_compute. reflexivity.
  - vm_compute. reflexivity.
Defined.

Lemma script_docs_is_file_witness :
  fst (run_script (fun _ => true) (fun _ => true) working_docker "/p"
         docs_file_files) = 1%Z
  /\ fs (snd (run_script (fun _ => true) (fun _ => true) working_docker "/p"
                docs_file_files)) = docs_file_files
  /\ forall argv : list string,
      ~ In (ESpawn argv)
           (trace (snd (run_script (fun _ => true) (fun _ => true)
                          working_docker "/p" docs_file_files))).
Proof.
  apply (script_docs_is_file (fun _ => true) (fun _ => true) working_docker
           "/p" docs_file_files "notes").
  - vm_compute. reflexivity.
  - vm_compute. reflexivity.
Defined.

Lemma script_frame_witness :
  (forall p : string,
      p ≠ path_join "/p" "docs" -> p ≠ output_path "/p" ->
      fs (snd working_run) !! p = project_files !! p)
  /\ fs (snd working_run) !! path_join "/p" ".env"
     = project_files !! path_join "/p" ".env".
Proof.
  apply (script_frame (fun _ => true) (fun _ => true) working_docker
           "/p" project_files (fst working_run) (snd working_run)).
  vm_compute. reflexivity.
Defined.

Lemma script_single_attempt_witness :
  count_events is_spawn (trace (snd working_run)) <= 1
  /\ count_events is_write (trace (snd working_run)) <= 1
  /\ (fst working_run = 0%Z ->
      count_events is_write (trace (snd working_run)) = 1)
  /\ (count_events is_write (trace (snd working_run)) = 1 ->
      exists (argv : list string) (stdout stderr : string),
        In (ESpawn argv) (trace (snd working_run))
        /\ working_docker argv = ProcExited 0 stdout stderr).
Proof.
  apply (script_single_attempt (fun _ => true) (fun _ => true) working_docker
           "/p" project_files (fst working_run) (snd working_run)).
  vm_compute. reflexivity.
Defined.

Lemma script_without_user_witness :
  fst (run_script (fun _ => true) (fun _ => true) working_docker "/p"
         no_user_files) = 1%Z
  /\ count_events is_spawn
       (trace (snd (run_script (fun _ => true) (fun _ => true) working_docker
                      "/p" no_user_files))) = 0
  /\ count_events is_write
       (trace (snd (run_script (fun _ => true) (fun _ => true) working_docker
                      "/p" no_user_files))) = 0.
Proof.
  apply (script_without_user (fun _ => true) (fun _ => true) working_docker
           "/p" no_user_files "DATABASE_URL=postgres://myhost/mydb"
           (mkConfig "myhost" 5432 "mydb" None None)).
  - vm_compute. reflexivity.
  - vm_compute. reflexivity.
  - reflexivity.
  - vm_compute. reflexivity.
Defined.

Lemma script_exit_zero_witness :
  exists (content : string) (cfg : db_config) (argv : list string)
         (stdout stderr : string),
    project_files !! path_join "/p" ".env" = Some (File content)
    /\ parse_database_url (fun _ => true) (fun _ => true)
         (database_url_of content) = Val cfg
    /\ argv_of (docker_cmd cfg) = Some argv
    /\ working_docker argv = ProcExited 0 stdout stderr
    /\ In (ESpawn argv) (trace (snd working_run))
    /\ fs (snd working_run) !! output_path "/p"
       = Some (File (universal_newlines stdout)).
Proof.
  apply (script_exit_zero (fun _ => true) (fun _ => true) working_docker
           "/p" project_files (snd working_run)).
  vm_compute. reflexivity.
Defined.

(** ** Line ends *)

Lemma universal_newlines_id (s : string) :
  Py.contains "013" s = false -> universal_newlines s = s.
Proof.
  induction s as [|c s IH]; [reflexivity|].
  simpl. intros [Hc Hs]%orb_false_iff. rewrite Hc. now rewrite (IH Hs).
Qed.

Lemma universal_newlines_to_crlf (s : string) :
  Py.contains "013" s = false -> universal_newlines (to_crlf s) = s.
Proof.
  induction s as [|c s IH]; [reflexivity|].
  simpl Py.contains. intros [Hc Hs]%orb_false_iff. simpl to_crlf.
  destruct (Ascii.eqb c "010") eqn:Hnl.
  - apply Ascii.eqb_eq in Hnl as ->. simpl. now rewrite (IH Hs).
  - simpl. rewrite Hc. now rewrite (IH Hs).
Qed.

(** X23: an environment file with Windows line ends loads to the same
    mapping as the same text with Unix line ends. *)
Theorem load_env_file_line_ends
        (w : world) (path_unix path_windows content : string) :
  Py.contains "013" content = false ->
  fs w !! path_unix = Some (File content) ->
  fs w !! path_windows = Some (File (to_crlf content)) ->
  load_env_file path_windows w = load_env_file path_unix w.
Proof.
  intros Hcr Hu Hw.
  rewrite (load_env_file_file _ _ _ Hu), (load_env_file_file _ _ _ Hw).
  unfold text_lines.
  now rewrite (universal_newlines_to_crlf _ Hcr), (universal_newlines_id _ Hcr).
Qed.

Lemma load_env_file_line_ends_witness :
  load_env_file "/w/.env" line_end_world = load_env_file "/u/.env" line_end_world.
Proof.
  apply (load_env_file_line_ends line_end_world "/u/.env" "/w/.env" unix_env).
  - reflexivity.
  - vm_compute. reflexivity.
  - vm_compute. reflexivity.
Defined.
